(** * RemoteApp (Starlette integration of the OAuth / OpenID Connect client)

    A shallow embedding of
    [authlib/integrations/starlette_client/remote_app.py].

    Python values are rendered by the type [value]; dictionaries are
    finite maps from strings to values.  The methods of [RemoteApp] are
    computations in a small state-and-exception monad [M]: the state holds
    the mutable attributes of the application object together with the log
    of every call that leaves the process (HTTP requests of the OAuth
    client, token endpoint exchanges) and of every invocation of the
    token-resolution hook.  The replies of the outside world are read from
    an environment [Env], which may answer differently depending on the
    calls logged so far. *)

From Stdlib Require Import ZArith String Ascii List Bool.
From stdpp Require Import base option gmap strings list fin_maps.

Set Warnings "-register-all".
Local Open Scope string_scope.

(** ** Python values *)

Inductive value : Type :=
| VNone
| VBool (b : bool)
| VInt (n : Z)
| VStr (s : string)
| VList (xs : list value)
| VDict (kvs : list (string * value)).

Abbreviation dict := (gmap string value).

(** Truth value testing, as [if x:] and [not x] do it. *)
Definition truthy (v : value) : bool :=
  match v with
  | VNone => false
  | VBool b => b
  | VInt n => negb (n =? 0)%Z
  | VStr s => negb (String.eqb s "")
  | VList xs => match xs with [] => false | _ => true end
  | VDict kvs => match kvs with [] => false | _ => true end
  end.

(** [x is None] *)
Definition is_none (v : value) : bool :=
  match v with VNone => true | _ => false end.

(** [d.get(k)]: the value at [k], [None] when the key is missing. *)
Definition dget (d : dict) (k : string) : value := default VNone (d !! k).

(** [k in d] *)
Definition contains (d : dict) (k : string) : bool :=
  match d !! k with Some _ => true | None => false end.

(** [d.update(new)]: the entries of [new] win over those of [d]. *)
Definition update (d new : dict) : dict := new ∪ d.

(** An optional dictionary attribute ([None] or a dict) used as a
    condition: [None] and the empty dict are both false. *)
Definition truthy_params (p : option dict) : bool :=
  match p with
  | Some d => negb (bool_decide (d = ∅))
  | None => false
  end.

(** [p or {}] *)
Definition or_empty (p : option dict) : dict :=
  if truthy_params p then default ∅ p else ∅.

(** The double quote character, for the messages that quote a key. *)
Definition dquote : string := String (ascii_of_nat 34) EmptyString.

(** ** Exceptions *)

Inductive exn : Type :=
| MissingRequestTokenError
| MissingTokenError
| RuntimeError (msg : string)
| KeyError (key : string)
| TypeError
| ValueError
| JSONDecodeError
| TransportError (msg : string)
| HookError (msg : string)
| StateMismatch
| InvalidIDToken.

Inductive Res (A : Type) : Type :=
| Ok (a : A)
| Raise (e : exn).
Arguments Ok {A} a.
Arguments Raise {A} e.

(** One element of the sequence given to [dict.update]: it is read as a
    sequence of length two, key first.  A list gives its two elements, a
    string its two characters, a mapping its two keys; any other length
    is a [ValueError], and a value that cannot be iterated a [TypeError].
    A list or a mapping cannot be a key ([TypeError], unhashable).  The
    dictionaries of the embedding are keyed by strings: an entry under
    [None], a boolean or a number, which no lookup of the module reads, is
    accepted and not recorded ([Ok None]). *)
Definition pair_of (item : value) : Res (option (string * value)) :=
  match item with
  | VList [k; v] =>
      match k with
      | VStr s => Ok (Some (s, v))
      | VList _ | VDict _ => Raise TypeError
      | VNone | VBool _ | VInt _ => Ok None
      end
  | VList _ => Raise ValueError
  | VStr (String a (String b EmptyString)) =>
      Ok (Some (String a EmptyString, VStr (String b EmptyString)))
  | VStr _ => Raise ValueError
  | VDict [(k1, _); (k2, _)] => Ok (Some (k1, VStr k2))
  | VDict _ => Raise ValueError
  | VNone | VBool _ | VInt _ => Raise TypeError
  end.

(** [d.update(items)] for a sequence of pairs: the pairs are stored in
    order, and at the first element that is not a pair the error is raised
    with the earlier pairs already stored. *)
Fixpoint update_pairs (d : dict) (items : list value) : dict * option exn :=
  match items with
  | [] => (d, None)
  | item :: rest =>
      match pair_of item with
      | Ok (Some (k, v)) => update_pairs (<[ k := v ]> d) rest
      | Ok None => update_pairs d rest
      | Raise e => (d, Some e)
      end
  end.

(** [d.update(v)] where [v] arrives as a value (a decoded JSON document
    or a keyword argument): the dictionary after the call, and the error
    when the call raises.  A mapping is merged; a list is read as a
    sequence of pairs; a string is a sequence of one-character strings,
    so only the empty string passes; [None], a boolean or a number cannot
    be iterated. *)
Definition update_value (d : dict) (v : value) : dict * option exn :=
  match v with
  | VDict kvs => (update d (list_to_map kvs), None)
  | VList items => update_pairs d items
  | VStr s => if String.eqb s "" then (d, None) else (d, Some ValueError)
  | VNone | VBool _ | VInt _ => (d, Some TypeError)
  end.

(** The updated dictionary when [update] returned, its error otherwise:
    for a dictionary that is not shared. *)
Definition updated (r : dict * option exn) : Res dict :=
  match r with
  | (d, None) => Ok d
  | (_, Some e) => Raise e
  end.

(** ** The inbound request, responses and the hook *)

(** What the methods read from a Starlette [Request]. *)
Record RequestCtx : Type := {
  query_params : dict;
  session : dict;
  scope : dict;
}.

Record Response : Type := {
  status_code : Z;
  body : option value;
}.

(** [resp.json()] *)
Definition resp_json (r : Response) : Res value :=
  match body r with
  | Some v => Ok v
  | None => Raise JSONDecodeError
  end.

(** The token-resolution hook [self._fetch_token] when it is callable:
    [is_coroutine] is the answer of [inspect.iscoroutinefunction]; the
    hook returns a token, returns [None], or raises. *)
Record Hook : Type := {
  is_coroutine : bool;
  hook_run : RequestCtx -> Res value;
}.

(** ** The application object *)

Record RemoteApp : Type := {
  client_id : value;
  request_token_url : value;
  request_token_params : option dict;
  access_token_url : value;
  access_token_params : option dict;
  authorize_url : value;
  authorize_params : option dict;
  api_base_url : value;
  _server_metadata_url : value;
  server_metadata : dict;
  _fetch_token : option Hook;
}.

Definition set_server_metadata_url (u : value) (a : RemoteApp) : RemoteApp :=
  {| client_id := client_id a;
     request_token_url := request_token_url a;
     request_token_params := request_token_params a;
     access_token_url := access_token_url a;
     access_token_params := access_token_params a;
     authorize_url := authorize_url a;
     authorize_params := authorize_params a;
     api_base_url := api_base_url a;
     _server_metadata_url := u;
     server_metadata := server_metadata a;
     _fetch_token := _fetch_token a |}.

Definition set_server_metadata (m : dict) (a : RemoteApp) : RemoteApp :=
  {| client_id := client_id a;
     request_token_url := request_token_url a;
     request_token_params := request_token_params a;
     access_token_url := access_token_url a;
     access_token_params := access_token_params a;
     authorize_url := authorize_url a;
     authorize_params := authorize_params a;
     api_base_url := api_base_url a;
     _server_metadata_url := _server_metadata_url a;
     server_metadata := m;
     _fetch_token := _fetch_token a |}.

(** ** Observable calls *)

(** The OAuth client object handed out by [_get_oauth_client]; the
    methods set its [redirect_uri] and [token] before they call it. *)
Inductive event : Type :=
| EvRequest (method url : string) (token : value)
            (request_kw : option RequestCtx) (kwargs : dict)
    (* client.request(method, url, kwargs) *)
| EvFetchToken (endpoint redirect_uri : value) (kwargs : dict)
    (* OAuth 2: client.fetch_token(token_endpoint, kwargs) *)
| EvFetchAccessToken (endpoint redirect_uri : value) (token kwargs : dict)
    (* OAuth 1: client.fetch_access_token(token_endpoint, kwargs) *)
| EvFetchRequestToken (url : value) (redirect_uri : value) (params : dict)
    (* OAuth 1: client.fetch_request_token(url, params) *)
| EvHook (coroutine : bool) (request : RequestCtx).
    (* self._fetch_token(request) *)

(** Every call of the OAuth client goes to the network; the hook is a
    local callable. *)
Definition is_network (e : event) : bool :=
  match e with
  | EvHook _ _ => false
  | _ => true
  end.

Definition is_hook (e : event) : bool :=
  match e with
  | EvHook _ _ => true
  | _ => false
  end.

Definition network_calls (tr : list event) : list event := List.filter is_network tr.
Definition hook_calls (tr : list event) : list event := List.filter is_hook tr.

(** A decoded compact JWS: protected header and payload. *)
Record Jws : Type := {
  jws_header : dict;
  jws_payload : dict;
}.

Inductive claims_cls : Type := CodeIDToken | ImplicitIDToken.

(** ** The environment

    The collaborators that are not part of the module: the HTTP transport
    behind the OAuth client, [urllib.parse.urljoin], the token generator
    and the JOSE primitives.  The transport sees the calls made so far. *)
Record Env : Type := {
  urljoin : value -> string -> string;
  http_reply : list event -> event -> Res Response;
  token_reply : list event -> event -> Res value;
  generate_token : list event -> string;
  jws_parse : value -> option Jws;
  jws_verify : value -> value -> bool;
  jwk_loads : value -> value -> option value;
  claims_valid : claims_cls -> value -> dict -> Z -> dict -> bool;
}.

(** ** The monad *)

Record World : Type := {
  app : RemoteApp;
  trace : list event;
}.

Definition M (A : Type) : Type := Env -> World -> Res A * World.

Definition ret {A} (a : A) : M A := fun _ w => (Ok a, w).

Definition bind {A B} (m : M A) (f : A -> M B) : M B :=
  fun env w =>
    match m env w with
    | (Ok a, w') => f a env w'
    | (Raise e, w') => (Raise e, w')
    end.

Definition raise {A} (e : exn) : M A := fun _ w => (Raise e, w).

Definition lift {A} (r : Res A) : M A := fun _ w => (r, w).

Declare Scope py_scope.
Delimit Scope py_scope with py.
Notation "'let*' x ':=' m 'in' k" := (bind m (fun x => k))
  (at level 10, x name, m at level 100, k at level 200) : py_scope.
Notation "'run' m 'in' k" := (bind m (fun _ => k))
  (at level 10, m at level 100, k at level 200) : py_scope.
Local Open Scope py_scope.

Definition get_self : M RemoteApp := fun _ w => (Ok (app w), w).

Definition modify_self (f : RemoteApp -> RemoteApp) : M unit :=
  fun _ w => (Ok tt, {| app := f (app w); trace := trace w |}).

Definition ask : M Env := fun env w => (Ok env, w).

Definition log (e : event) (w : World) : World :=
  {| app := app w; trace := trace w ++ [e] |}.

(** [await client.request(method, url, kwargs)] *)
Definition client_request (method url : string) (token : value)
    (request_kw : option RequestCtx) (kwargs : dict) : M Response :=
  fun env w =>
    let e := EvRequest method url token request_kw kwargs in
    (http_reply env (trace w) e, log e w).

(** A call of the OAuth client that yields a token. *)
Definition client_token_call (e : event) : M value :=
  fun env w => (token_reply env (trace w) e, log e w).

(** [self._fetch_token(request)], awaited when it is a coroutine. *)
Definition call_hook (h : Hook) (r : RequestCtx) : M value :=
  fun _ w => (hook_run h r, log (EvHook (is_coroutine h) r) w).

(** ** Methods of [RemoteApp] *)

(** [url.startswith(('https://', 'http://'))] *)
Definition is_absolute (url : string) : bool :=
  String.prefix "https://" url || String.prefix "http://" url.

(** Lines 149 and 150: the URL resolved against [api_base_url]. *)
Definition resolve_url (env : Env) (self : RemoteApp) (url : string) : string :=
  if truthy (api_base_url self) && negb (is_absolute url)
  then urljoin env (api_base_url self) url
  else url.

(** [request(self, method, url, token=None, kwargs)].  The keyword
    [request] carries an object, so it is kept apart from the other
    keyword arguments: [request_kw] is what [kwargs.pop('request', None)]
    finds, and a [Request] object is always true as a condition. *)
Definition request (method url : string) (token : value)
    (request_kw : option RequestCtx) (kwargs : dict) : M Response :=
  let* self := get_self in
  let* env := ask in
  let url := resolve_url env self url in
  if truthy (dget kwargs "withhold_token") then
    client_request method url VNone request_kw kwargs
  else
    let* token :=
      match request_kw with
      | Some r =>
          if is_none token then
            match _fetch_token self with
            | Some h => call_hook h r
            | None => ret token
            end
          else ret token
      | None => ret token
      end in
    if is_none token then raise MissingTokenError
    else client_request method url token None kwargs.

(** A URL attribute or metadata entry is a string when it is true. *)
Definition url_string (v : value) : string :=
  match v with VStr s => s | _ => "" end.

(** [_fetch_server_metadata(self, url)] *)
Definition _fetch_server_metadata (url : value) : M value :=
  let* resp := request "GET" (url_string url) VNone None
                 {[ "withhold_token" := VBool true ]} in
  lift (resp_json resp).

(** The HTTP request that [_fetch_server_metadata] hands to the client. *)
Definition metadata_request (env : Env) (self : RemoteApp) (url : value) : event :=
  EvRequest "GET" (resolve_url env self (url_string url)) VNone None
    {[ "withhold_token" := VBool true ]}.

(** [self.server_metadata.update(metadata)]: the dictionary of the
    application object is updated in place, so what was stored before an
    error stays stored. *)
Definition update_server_metadata (metadata : value) : M unit :=
  fun _ w =>
    let (merged, err) := update_value (server_metadata (app w)) metadata in
    (match err with None => Ok tt | Some e => Raise e end,
     {| app := set_server_metadata merged (app w); trace := trace w |}).

(** [_load_server_metadata(self)] *)
Definition _load_server_metadata : M dict :=
  let* self := get_self in
  run (if truthy (_server_metadata_url self) then
         let* metadata := _fetch_server_metadata (_server_metadata_url self) in
         run modify_self (set_server_metadata_url VNone) in  (* only load once *)
         update_server_metadata metadata
       else ret tt) in
  let* self := get_self in
  ret (server_metadata self).

(** [_fetch_jwk_set(self, force=False)] *)
Definition _fetch_jwk_set (force : bool) : M value :=
  let* metadata := _load_server_metadata in
  let jwk_set := dget metadata "jwks" in
  if truthy jwk_set && negb force then ret jwk_set
  else
    let uri := dget metadata "jwks_uri" in
    if negb (truthy uri) then
      raise (RuntimeError
               ("Missing " ++ dquote ++ "jwks_uri" ++ dquote ++ " in metadata"))
    else
      let* jwk_set := _fetch_server_metadata uri in
      run modify_self
            (fun a => set_server_metadata (<[ "jwks" := jwk_set ]> (server_metadata a)) a) in
      ret jwk_set.

(** ** ID token verification *)

(** Modelled from the spec: [_get_session_data] belongs to [BaseApp],
    which is not part of the module.  Section 6 gives the session store
    the operation [load(key) -> value | absent]. *)
Definition _get_session_data (request : RequestCtx) (key : string) : value :=
  dget (session request) key.

(** [alg in algorithms], for a list of algorithm names. *)
Definition alg_allowed (algorithms alg : value) : bool :=
  match algorithms, alg with
  | VList xs, VStr a =>
      existsb (fun x => match x with VStr b => String.eqb a b | _ => false end) xs
  | _, _ => false
  end.

(** Modelled from the spec: [JsonWebToken(alg_values).decode] belongs to
    [authlib.jose], which is not part of the module.  Section 4.4: the
    allow-list of algorithms is enforced, the signing key is resolved by
    key id through the [key] callback, then the signature is validated;
    every failure is [InvalidIDToken]. *)
Definition jwt_decode (alg_values : value) (s : value)
    (key : dict -> dict -> option value) : M dict :=
  let* env := ask in
  match jws_parse env s with
  | None => raise InvalidIDToken
  | Some jws =>
      if negb (alg_allowed alg_values (dget (jws_header jws) "alg")) then
        raise InvalidIDToken
      else
        match key (jws_header jws) (jws_payload jws) with
        | None => raise InvalidIDToken
        | Some k =>
            if jws_verify env k s then ret (jws_payload jws)
            else raise InvalidIDToken
        end
  end.

(** Modelled from the spec: [claims.validate(leeway)] belongs to
    [authlib.oidc.core], which is not part of the module.  Section 4.4:
    issuer, nonce and the time-based fields are validated within the
    leeway; a failure is [InvalidIDToken]. *)
Definition claims_validate (cls : claims_cls) (claims_options : value)
    (claims_params : dict) (leeway : Z) (claims : dict) : M unit :=
  let* env := ask in
  if claims_valid env cls claims_options claims_params leeway claims then ret tt
  else raise InvalidIDToken.

(** Lines 203 to 205: the algorithms handed to [JsonWebToken]. *)
Definition id_token_alg_values (metadata : dict) : value :=
  let alg_values := dget metadata "id_token_signing_alg_values_supported" in
  if negb (truthy alg_values) then VList [VStr "RS256"] else alg_values.

(** [parse_id_token(self, request, token, claims_options=None)]; the
    result is [None] or [UserInfo(claims)]. *)
Definition parse_id_token (request : RequestCtx) (token : dict)
    (claims_options : value) : M (option dict) :=
  if negb (contains token "id_token") then ret None
  else
    let* self := get_self in
    let* env := ask in
    let nonce := _get_session_data request "nonce" in
    let claims_params : dict :=
      <[ "client_id" := client_id self ]> (<[ "nonce" := nonce ]> ∅) in
    let claims_params :=
      if contains token "access_token"
      then <[ "access_token" := dget token "access_token" ]> claims_params
      else claims_params in
    let cls := if contains token "access_token" then CodeIDToken else ImplicitIDToken in
    let* metadata := _load_server_metadata in
    let claims_options :=
      if is_none claims_options && contains metadata "issuer"
      then VDict [("iss", VDict [("values", VList [dget metadata "issuer"])])]
      else claims_options in
    let alg_values := id_token_alg_values metadata in
    let* jwk_set := _fetch_jwk_set false in
    let load_key (header payload : dict) : option value :=
      (* TODO: reload jwk set if invalid *)
      jwk_loads env jwk_set (dget header "kid") in
    let* claims := jwt_decode alg_values (dget token "id_token") load_key in
    run claims_validate cls claims_options claims_params 120 claims in
    ret (Some claims).

(** ** Access token *)

(** [_generate_access_token_params(self, request)] *)
Definition _generate_access_token_params (self : RemoteApp) (request : RequestCtx) : dict :=
  if truthy (request_token_url self) then scope request
  else
    <[ "state" := dget (query_params request) "state" ]>
      (<[ "code" := dget (query_params request) "code" ]> ∅).

(** Equality of two state values (strings, or [None] when missing). *)
Definition state_eqb (a b : value) : bool :=
  match a, b with
  | VNone, VNone => true
  | VStr x, VStr y => String.eqb x y
  | _, _ => false
  end.

(** Modelled from the spec: [retrieve_access_token_params] belongs to
    [BaseApp], which is not part of the module.  Sections 3, 4.3 and 8:
    the parameters come from the callback; in the OAuth 2 flow the state
    echoed by the callback is matched against the persisted state and a
    mismatch fails with [StateMismatch]; in the OAuth 1 flow the persisted
    request token joins the parameters; the persisted redirect URI is
    handed on when there is one. *)
Definition retrieve_access_token_params (request : RequestCtx) : M dict :=
  let* self := get_self in
  let params := _generate_access_token_params self request in
  let with_redirect (p : dict) : dict :=
    if truthy (_get_session_data request "redirect_uri")
    then <[ "redirect_uri" := _get_session_data request "redirect_uri" ]> p
    else p in
  if truthy (request_token_url self) then
    ret (with_redirect
           (<[ "request_token" := _get_session_data request "request_token" ]> params))
  else if state_eqb (dget params "state") (_get_session_data request "state") then
    ret (with_redirect params)
  else raise StateMismatch.

(** [fetch_access_token(self, redirect_uri=None, request_token=None, params)] *)
Definition fetch_access_token (redirect_uri request_token : value)
    (params : dict) : M value :=
  let* self := get_self in
  let* metadata := _load_server_metadata in
  let token_endpoint :=
    if negb (truthy (access_token_url self)) && negb (truthy (request_token_url self))
    then dget metadata "token_endpoint"
    else access_token_url self in
  if truthy (request_token_url self) then
    if is_none request_token then raise MissingRequestTokenError
    else
      (* merge request token with verifier *)
      let* token := lift (updated (update_value ∅ request_token)) in
      let token := update token params in
      let kwargs := or_empty (access_token_params self) in
      client_token_call (EvFetchAccessToken token_endpoint redirect_uri token kwargs)
  else
    let kwargs : dict := ∅ in
    let kwargs :=
      if truthy_params (access_token_params self)
      then update kwargs (default ∅ (access_token_params self))
      else kwargs in
    let kwargs := update kwargs params in
    client_token_call (EvFetchToken token_endpoint redirect_uri kwargs).

(** [fetch_access_token] applied to a dictionary of keyword arguments:
    the keys [redirect_uri] and [request_token] bind the named
    parameters, the others are collected in [params]. *)
Definition fetch_access_token_kw (params : dict) : M value :=
  fetch_access_token (dget params "redirect_uri") (dget params "request_token")
    (delete "redirect_uri" (delete "request_token" params)).

(** [authorize_access_token(self, request, kwargs)] *)
Definition authorize_access_token (request : RequestCtx) (kwargs : dict) : M value :=
  let* params := retrieve_access_token_params request in
  let params := update params kwargs in
  fetch_access_token_kw params.

(** ** Authorization URL *)

(** An authorization URL: the endpoint and its query parameters in
    order. *)
Record AuthorizationUrl : Type := {
  url_endpoint : value;
  url_query : list (string * value);
}.

(** The dictionary returned by [create_authorization_url]: [url] with
    [state] (OAuth 2) or with [request_token] (OAuth 1). *)
Record AuthorizationData : Type := {
  rv_url : AuthorizationUrl;
  rv_state : value;
  rv_request_token : value;
}.

(** Modelled from the spec: [_create_oauth2_authorization_url] belongs to
    [BaseApp] and the URL is built by the OAuth 2 client, neither of which
    is part of the module.  Section 4.3: the URL contains [client_id],
    [redirect_uri], [state] (generated if absent) and the merged
    parameters. *)
Definition _create_oauth2_authorization_url (redirect_uri authorization_endpoint : value)
    (kwargs : dict) : M AuthorizationData :=
  let* self := get_self in
  let* env := ask in
  fun _ w =>
    let state :=
      if is_none (dget kwargs "state") then VStr (generate_token env (trace w))
      else dget kwargs "state" in
    let url :=
      {| url_endpoint := authorization_endpoint;
         url_query :=
           [("client_id", client_id self); ("redirect_uri", redirect_uri);
            ("state", state)] ++ map_to_list (delete "state" kwargs) |} in
    (Ok {| rv_url := url; rv_state := state; rv_request_token := VNone |}, w).

(** Modelled from the spec: [client.create_authorization_url] of the
    OAuth 1 client is not part of the module.  Section 4.2: the request
    token is appended as a query parameter to the authorization
    endpoint. *)
Definition oauth1_authorization_url (authorization_endpoint token : value)
    (kwargs : dict) : AuthorizationUrl :=
  {| url_endpoint := authorization_endpoint;
     url_query := map_to_list kwargs ++ [("oauth_token", token)] |}.

(** [_create_oauth1_authorization_url(self, client, authorization_endpoint, kwargs)];
    the client carries the redirect URI set by the caller. *)
Definition _create_oauth1_authorization_url (redirect_uri authorization_endpoint : value)
    (kwargs : dict) : M AuthorizationData :=
  let* self := get_self in
  let params : dict := ∅ in
  let params :=
    if truthy_params (request_token_params self)
    then update params (default ∅ (request_token_params self))
    else params in
  let* token :=
    client_token_call (EvFetchRequestToken (request_token_url self) redirect_uri params) in
  let url := oauth1_authorization_url authorization_endpoint token kwargs in
  ret {| rv_url := url; rv_state := VNone; rv_request_token := token |}.

(** Lines 77 and 78: the keyword arguments after the static authorize
    parameters have been merged in. *)
Definition merge_authorize_params (self : RemoteApp) (kwargs : dict) : dict :=
  if truthy_params (authorize_params self)
  then update kwargs (default ∅ (authorize_params self))
  else kwargs.

(** [create_authorization_url(self, redirect_uri=None, kwargs)] *)
Definition create_authorization_url (redirect_uri : value) (kwargs : dict)
    : M AuthorizationData :=
  let* self := get_self in
  let* metadata := _load_server_metadata in
  let authorization_endpoint :=
    if negb (truthy (authorize_url self)) && negb (truthy (request_token_url self))
    then dget metadata "authorization_endpoint"
    else authorize_url self in
  if negb (truthy authorization_endpoint) then
    raise (RuntimeError
             ("Missing " ++ dquote ++ "authorize_url" ++ dquote ++ " value"))
  else
    let kwargs := merge_authorize_params self kwargs in
    if truthy (request_token_url self) then
      _create_oauth1_authorization_url redirect_uri authorization_endpoint kwargs
    else
      _create_oauth2_authorization_url redirect_uri authorization_endpoint kwargs.

(** ** Sample collaborators and applications

    Concrete environments and application objects on which the methods
    are run. *)

Definition sample_urljoin (base : value) (url : string) : string :=
  url_string base ++ url.

(** A JWK set as a mapping from key id to key material. *)
Definition jwk_by_kid (jwk_set kid : value) : option value :=
  match jwk_set, kid with
  | VDict kvs, VStr k => (list_to_map kvs : dict) !! k
  | _, _ => None
  end.

(** Three ID tokens: signed with RS256 under key [k1], signed with RS256
    under key [k2], and unsigned ([alg] is [none]). *)
Definition sample_jws_parse (s : value) : option Jws :=
  match s with
  | VStr t =>
      if String.eqb t "rs256.k1" then
        Some {| jws_header := {[ "alg" := VStr "RS256"; "kid" := VStr "k1" ]};
                jws_payload := {[ "sub" := VStr "alice" ]} |}
      else if String.eqb t "rs256.k2" then
        Some {| jws_header := {[ "alg" := VStr "RS256"; "kid" := VStr "k2" ]};
                jws_payload := {[ "sub" := VStr "bob" ]} |}
      else if String.eqb t "none.k1" then
        Some {| jws_header := {[ "alg" := VStr "none"; "kid" := VStr "k1" ]};
                jws_payload := {[ "sub" := VStr "mallory" ]} |}
      else None
  | _ => None
  end.

Definition discovery_url : string := "https://idp.example/.well-known/openid-configuration".
Definition jwks_url : string := "https://idp.example/jwks".

Definition jwks_old : value := VDict [("k1", VStr "key-1")].
Definition jwks_new : value := VDict [("k1", VStr "key-1"); ("k2", VStr "key-2")].

Definition discovery_document : list (string * value) :=
  [("issuer", VStr "https://idp.example");
   ("token_endpoint", VStr "https://idp.example/token");
   ("authorization_endpoint", VStr "https://idp.example/authorize");
   ("jwks_uri", VStr jwks_url)].

(** A provider that is up: it serves the discovery document and the
    current key set, and answers every token call. *)
Definition env_up : Env :=
  {| urljoin := sample_urljoin;
     http_reply := fun _ e =>
       match e with
       | EvRequest _ url _ _ _ =>
           if String.eqb url jwks_url
           then Ok {| status_code := 200; body := Some jwks_new |}
           else Ok {| status_code := 200; body := Some (VDict discovery_document) |}
       | _ => Raise (TransportError "not an HTTP request")
       end;
     token_reply := fun _ _ => Ok (VDict [("access_token", VStr "at-1")]);
     generate_token := fun _ => "generated-state";
     jws_parse := sample_jws_parse;
     jws_verify := fun _ _ => true;
     jwk_loads := jwk_by_kid;
     claims_valid := fun _ _ _ _ _ => true |}.

(** A provider that cannot be reached. *)
Definition env_down : Env :=
  {| urljoin := sample_urljoin;
     http_reply := fun _ _ => Raise (TransportError "connection refused");
     token_reply := fun _ _ => Raise (TransportError "connection refused");
     generate_token := fun _ => "generated-state";
     jws_parse := sample_jws_parse;
     jws_verify := fun _ _ => true;
     jwk_loads := jwk_by_kid;
     claims_valid := fun _ _ _ _ _ => true |}.

(** An OAuth 2 application with static endpoints and no discovery. *)
Definition app_static : RemoteApp :=
  {| client_id := VStr "cid";
     request_token_url := VNone;
     request_token_params := None;
     access_token_url := VStr "https://idp.example/token";
     access_token_params := None;
     authorize_url := VStr "https://idp.example/authorize";
     authorize_params := None;
     api_base_url := VNone;
     _server_metadata_url := VNone;
     server_metadata := ∅;
     _fetch_token := None |}.

(** An OpenID Connect application that discovers its metadata. *)
Definition app_discovery : RemoteApp :=
  set_server_metadata_url (VStr discovery_url) app_static.

(** An application whose metadata holds a cached key set and the address
    of the current one. *)
Definition app_cached_jwks : RemoteApp :=
  set_server_metadata {[ "jwks" := jwks_old; "jwks_uri" := VStr jwks_url ]} app_static.

Definition start (a : RemoteApp) : World := {| app := a; trace := [] |}.

Definition empty_request : RequestCtx :=
  {| query_params := ∅; session := ∅; scope := {[ "type" := VStr "http" ]} |}.

Definition hook_returns_token : Hook :=
  {| is_coroutine := true;
     hook_run := fun _ => Ok (VDict [("access_token", VStr "at-1")]) |}.


Definition set_fetch_token (h : option Hook) (a : RemoteApp) : RemoteApp :=
  {| client_id := client_id a;
     request_token_url := request_token_url a;
     request_token_params := request_token_params a;
     access_token_url := access_token_url a;
     access_token_params := access_token_params a;
     authorize_url := authorize_url a;
     authorize_params := authorize_params a;
     api_base_url := api_base_url a;
     _server_metadata_url := _server_metadata_url a;
     server_metadata := server_metadata a;
     _fetch_token := h |}.

Definition app_with_hook : RemoteApp := set_fetch_token (Some hook_returns_token) app_static.

Definition kw_withhold : dict := {[ "withhold_token" := VBool true ]}.
Definition kw_plain : dict := {[ "timeout" := VInt 5 ]}.

(** An OAuth 1 application (a request token URL is configured). *)
Definition app_oauth1 : RemoteApp :=
  {| client_id := VStr "cid";
     request_token_url := VStr "https://idp.example/request_token";
     request_token_params := None;
     access_token_url := VStr "https://idp.example/access_token";
     access_token_params := None;
     authorize_url := VStr "https://idp.example/authorize";
     authorize_params := None;
     api_base_url := VNone;
     _server_metadata_url := VNone;
     server_metadata := ∅;
     _fetch_token := None |}.

(** The same OAuth 1 application with a metadata URL to load. *)
Definition app_oauth1_discovery : RemoteApp :=
  set_server_metadata_url (VStr discovery_url) app_oauth1.

(** A callback whose state is the persisted one, and one whose state is
    not. *)
Definition callback_good : RequestCtx :=
  {| query_params := {[ "code" := VStr "abc"; "state" := VStr "s1" ]};
     session := {[ "state" := VStr "s1" ]};
     scope := {[ "type" := VStr "http" ]} |}.

Definition callback_forged : RequestCtx :=
  {| query_params := {[ "code" := VStr "abc"; "state" := VStr "s2" ]};
     session := {[ "state" := VStr "s1" ]};
     scope := {[ "type" := VStr "http" ]} |}.

(** An OAuth 2 application with a static authorize parameter. *)
Definition app_prompt : RemoteApp :=
  {| client_id := VStr "cid";
     request_token_url := VNone;
     request_token_params := None;
     access_token_url := VStr "https://idp.example/token";
     access_token_params := None;
     authorize_url := VStr "https://idp.example/authorize";
     authorize_params := Some {[ "prompt" := VStr "consent" ]};
     api_base_url := VNone;
     _server_metadata_url := VNone;
     server_metadata := ∅;
     _fetch_token := None |}.

Definition kw_prompt_none : dict := {[ "prompt" := VStr "none" ]}.

Definition token_kid_k2 : dict := {[ "id_token" := VStr "rs256.k2" ]}.

(** A hook that fails, and an application that uses it. *)
Definition hook_raises : Hook :=
  {| is_coroutine := true;
     hook_run := fun _ => Raise (HookError "session expired") |}.

Definition app_hook_raises : RemoteApp := set_fetch_token (Some hook_raises) app_static.

(** An application with a base URL for its API. *)
Definition app_api : RemoteApp :=
  {| client_id := VStr "cid";
     request_token_url := VNone;
     request_token_params := None;
     access_token_url := VStr "https://idp.example/token";
     access_token_params := Some {[ "grant_type" := VStr "authorization_code";
                                    "code" := VStr "static" ]};
     authorize_url := VStr "https://idp.example/authorize";
     authorize_params := None;
     api_base_url := VStr "https://api.example/v1/";
     _server_metadata_url := VNone;
     server_metadata := ∅;
     _fetch_token := Some hook_returns_token |}.

Definition sample_token : value := VDict [("access_token", VStr "at-0")].

(** The message of [_fetch_jwk_set] when there is no [jwks_uri]. *)
Definition missing_jwks_uri : string :=
  "Missing " ++ dquote ++ "jwks_uri" ++ dquote ++ " in metadata".

(** An application whose metadata only has the address of the key set. *)
Definition app_jwks_uri_only : RemoteApp :=
  set_server_metadata {[ "jwks_uri" := VStr jwks_url ]} app_static.

(** An OAuth 2 application that has no token endpoint of its own. *)
Definition app_no_token_url : RemoteApp :=
  {| client_id := VStr "cid";
     request_token_url := VNone;
     request_token_params := None;
     access_token_url := VNone;
     access_token_params := None;
     authorize_url := VStr "https://idp.example/authorize";
     authorize_params := None;
     api_base_url := VNone;
     _server_metadata_url := VNone;
     server_metadata := ∅;
     _fetch_token := None |}.



(** The message of [create_authorization_url] when there is no
    authorization endpoint. *)
Definition missing_authorize_url : string :=
  "Missing " ++ dquote ++ "authorize_url" ++ dquote ++ " value".

(** An OAuth 1 application without [authorize_url] whose metadata names
    an authorization endpoint. *)
Definition app_oauth1_no_authorize : RemoteApp :=
  {| client_id := VStr "cid";
     request_token_url := VStr "https://idp.example/request_token";
     request_token_params := Some {[ "realm" := VStr "photos" ]};
     access_token_url := VStr "https://idp.example/access_token";
     access_token_params := None;
     authorize_url := VNone;
     authorize_params := None;
     api_base_url := VNone;
     _server_metadata_url := VNone;
     server_metadata :=
       {[ "authorization_endpoint" := VStr "https://idp.example/authorize" ]};
     _fetch_token := None |}.

(** An OAuth 1 application with static request token parameters. *)
Definition app_oauth1_realm : RemoteApp :=
  {| client_id := VStr "cid";
     request_token_url := VStr "https://idp.example/request_token";
     request_token_params := Some {[ "realm" := VStr "photos" ]};
     access_token_url := VStr "https://idp.example/access_token";
     access_token_params := None;
     authorize_url := VStr "https://idp.example/authorize";
     authorize_params := Some {[ "perms" := VStr "read" ]};
     api_base_url := VNone;
     _server_metadata_url := VNone;
     server_metadata := ∅;
     _fetch_token := None |}.



(** A caller that passes a [code] keyword of its own. *)
Definition kw_own_code : dict := {[ "code" := VStr "other" ]}.

(** A provider whose discovery document is an empty list. *)
Definition env_empty_document : Env :=
  {| urljoin := sample_urljoin;
     http_reply := fun _ _ => Ok {| status_code := 200; body := Some (VList []) |};
     token_reply := fun _ _ => Ok (VDict [("access_token", VStr "at-1")]);
     generate_token := fun _ => "generated-state";
     jws_parse := sample_jws_parse;
     jws_verify := fun _ _ => true;
     jwk_loads := jwk_by_kid;
     claims_valid := fun _ _ _ _ _ => true |}.

(** * Properties *)

(** ** The monad *)


Lemma network_calls_app tr1 tr2 :
  network_calls (tr1 ++ tr2) = (network_calls tr1 ++ network_calls tr2)%list.
Proof. apply List.filter_app. Qed.

Lemma hook_calls_app tr1 tr2 :
  hook_calls (tr1 ++ tr2) = (hook_calls tr1 ++ hook_calls tr2)%list.
Proof. apply List.filter_app. Qed.

(** ** The request gateway *)

Lemma request_withheld env w method url token request_kw kwargs :
  truthy (dget kwargs "withhold_token") = true ->
  request method url token request_kw kwargs env w
  = client_request method (resolve_url env (app w) url) VNone request_kw kwargs env w.
Proof.
  intros Hw. unfold request, bind, get_self, ask. now rewrite Hw.
Qed.

Lemma request_without_context env w method url token kwargs :
  truthy (dget kwargs "withhold_token") = false ->
  request method url token None kwargs env w
  = if is_none token then (Raise MissingTokenError, w)
    else client_request method (resolve_url env (app w) url) token None kwargs env w.
Proof.
  intros Hw. unfold request, bind, get_self, ask, ret, raise. rewrite Hw.
  now destruct (is_none token).
Qed.

Lemma withheld_request_hook_calls
    env w method url token request_kw kwargs :
  truthy (dget kwargs "withhold_token") = true ->
  hook_calls (trace (snd (request method url token request_kw kwargs env w)))
  = hook_calls (trace w).
Proof.
  intros Hw. rewrite (request_withheld _ _ _ _ _ _ _ Hw).
  unfold client_request, log; cbn [snd trace].
  rewrite hook_calls_app. cbn. now rewrite app_nil_r.
Qed.

(** C7: when [withhold_token] is set, [request] goes straight to the
    client: whatever the token argument, the hook and the request context
    are, the only call made is the HTTP request itself, sent without a
    token, and the hook is not invoked. *)
Theorem request_withhold_token_skips_resolution
    env w method url token request_kw kwargs :
  truthy (dget kwargs "withhold_token") = true ->
  let sent := EvRequest method (resolve_url env (app w) url) VNone request_kw kwargs in
  let out := request method url token request_kw kwargs env w in
  fst out = http_reply env (trace w) sent /\
  trace (snd out) = (trace w ++ [sent])%list /\
  hook_calls (trace (snd out)) = hook_calls (trace w).
Proof.
  intros Hw sent out. subst out.
  rewrite (request_withheld _ _ _ _ _ _ _ Hw).
  unfold client_request, log; cbn [fst snd trace].
  repeat split.
  rewrite hook_calls_app. cbn. now rewrite app_nil_r.
Qed.


Lemma request_withhold_token_skips_resolution_witness :
  truthy (dget kw_withhold "withhold_token") = true /\
  hook_calls (trace (snd (request "GET" "https://api.example/status" VNone
                            (Some empty_request) kw_withhold env_up
                            (start app_with_hook)))) = [].
Proof.
  assert (H : truthy (dget kw_withhold "withhold_token") = true) by reflexivity.
  split; [exact H |].
  exact (proj2 (proj2 (request_withhold_token_skips_resolution env_up
           (start app_with_hook) "GET" "https://api.example/status" VNone
           (Some empty_request) kw_withhold H))).
Defined.



(** C10: with a hook configured, no explicit token and no [request]
    keyword, [request] raises [MissingTokenError] and leaves the log as
    it was, so the hook has not been invoked; more generally no call
    without the [request] keyword ever invokes the hook. *)
Theorem request_hook_needs_request_context env w method url kwargs h :
  _fetch_token (app w) = Some h ->
  truthy (dget kwargs "withhold_token") = false ->
  request method url VNone None kwargs env w = (Raise MissingTokenError, w) /\
  (forall token kwargs',
     hook_calls (trace (snd (request method url token None kwargs' env w)))
     = hook_calls (trace w)).
Proof.
  intros _ Hw. split.
  - now rewrite (request_without_context _ _ _ _ _ _ Hw).
  - intros token kwargs'.
    destruct (truthy (dget kwargs' "withhold_token")) eqn:Hw'.
    + apply (withheld_request_hook_calls env w method url token None kwargs' Hw').
    + rewrite (request_without_context _ _ _ _ _ _ Hw').
      destruct (is_none token); [reflexivity |].
      unfold client_request, log; cbn [snd trace].
      rewrite hook_calls_app. cbn. now rewrite app_nil_r.
Qed.

Lemma request_hook_needs_request_context_witness :
  _fetch_token (app (start app_with_hook)) = Some hook_returns_token /\
  truthy (dget kw_plain "withhold_token") = false /\
  request "GET" "https://api.example/me" VNone None kw_plain env_up
    (start app_with_hook)
  = (Raise MissingTokenError, start app_with_hook).
Proof.
  assert (Hh : _fetch_token (app (start app_with_hook)) = Some hook_returns_token)
    by reflexivity.
  assert (Hw : truthy (dget kw_plain "withhold_token") = false) by reflexivity.
  split; [exact Hh |]. split; [exact Hw |].
  exact (proj1 (request_hook_needs_request_context env_up (start app_with_hook)
                  "GET" "https://api.example/me" kw_plain hook_returns_token Hh Hw)).
Defined.

(** ** ID tokens *)

(** C8: for a token without an [id_token] entry [parse_id_token] returns
    [None]; nothing is raised, the application object is untouched and no
    call is made. *)
Theorem parse_id_token_without_id_token env w request token claims_options :
  token !! "id_token" = None ->
  parse_id_token request token claims_options env w = (Ok None, w).
Proof.
  intros H. unfold parse_id_token, contains. now rewrite H.
Qed.

Lemma parse_id_token_without_id_token_witness :
  ({[ "access_token" := VStr "at-1" ]} : dict) !! "id_token" = None /\
  parse_id_token empty_request {[ "access_token" := VStr "at-1" ]} VNone
    env_down (start app_discovery)
  = (Ok None, start app_discovery).
Proof.
  assert (H : ({[ "access_token" := VStr "at-1" ]} : dict) !! "id_token" = None)
    by reflexivity.
  split; [exact H |].
  exact (parse_id_token_without_id_token env_down (start app_discovery)
           empty_request _ VNone H).
Defined.

(** ** Server metadata *)

(** [dict.update] on values that are not mappings: an empty list and an
    empty string change nothing, a list of pairs is merged, and a list
    with an element that is not a pair raises after the earlier pairs
    have been stored. *)
Example update_value_sequences :
  update_value {[ "a" := VInt 1 ]} (VList []) = ({[ "a" := VInt 1 ]}, None) /\
  update_value {[ "a" := VInt 1 ]} (VStr "") = ({[ "a" := VInt 1 ]}, None) /\
  update_value {[ "a" := VInt 1 ]} (VList [VList [VStr "b"; VInt 2]; VStr "cd"])
  = ({[ "a" := VInt 1; "b" := VInt 2; "c" := VStr "d" ]}, None) /\
  update_value {[ "a" := VInt 1 ]} (VList [VList [VStr "b"; VInt 2]; VInt 5])
  = ({[ "a" := VInt 1; "b" := VInt 2 ]}, Some TypeError) /\
  update_value {[ "a" := VInt 1 ]} (VStr "ab") = ({[ "a" := VInt 1 ]}, Some ValueError) /\
  update_value {[ "a" := VInt 1 ]} VNone = ({[ "a" := VInt 1 ]}, Some TypeError).
Proof. repeat split; vm_compute; reflexivity. Qed.

(** A discovery document that is an empty list is accepted: the call
    returns the cache as it was and the URL is cleared. *)
Example load_server_metadata_empty_list_document :
  _load_server_metadata env_empty_document (start app_discovery)
  = (Ok ∅,
     {| app := app_static;
        trace := [metadata_request env_empty_document app_discovery
                    (VStr discovery_url)] |}).
Proof. vm_compute. reflexivity. Qed.

Lemma fetch_server_metadata_unfold env w url :
  _fetch_server_metadata url env w
  = (match http_reply env (trace w) (metadata_request env (app w) url) with
     | Ok resp => resp_json resp
     | Raise e => Raise e
     end,
     log (metadata_request env (app w) url) w).
Proof.
  unfold _fetch_server_metadata, bind.
  rewrite request_withheld by reflexivity.
  unfold client_request, metadata_request, lift.
  now destruct (http_reply _ _ _).
Qed.

Lemma load_server_metadata_cached env w :
  truthy (_server_metadata_url (app w)) = false ->
  _load_server_metadata env w = (Ok (server_metadata (app w)), w).
Proof.
  intros H. unfold _load_server_metadata, bind, get_self; cbn. now rewrite H.
Qed.

(** What a call of [_load_server_metadata] does while a discovery URL is
    configured. *)
Lemma load_server_metadata_unfold env w :
  truthy (_server_metadata_url (app w)) = true ->
  _load_server_metadata env w
  = let ev := metadata_request env (app w) (_server_metadata_url (app w)) in
    match http_reply env (trace w) ev with
    | Raise e => (Raise e, log ev w)
    | Ok resp =>
        match body resp with
        | None => (Raise JSONDecodeError, log ev w)
        | Some doc =>
            let after :=
              {| app := set_server_metadata
                          (fst (update_value (server_metadata (app w)) doc))
                          (set_server_metadata_url VNone (app w));
                 trace := (trace w ++ [ev])%list |} in
            match snd (update_value (server_metadata (app w)) doc) with
            | Some e => (Raise e, after)
            | None => (Ok (fst (update_value (server_metadata (app w)) doc)), after)
            end
        end
    end.
Proof.
  intros H. unfold _load_server_metadata, bind at 1, get_self at 1. rewrite H.
  unfold bind at 1. unfold bind at 1. rewrite fetch_server_metadata_unfold.
  cbv zeta.
  destruct (http_reply _ _ _) as [resp | e]; [| reflexivity].
  unfold resp_json. destruct (body resp) as [doc |]; [| reflexivity].
  unfold bind, modify_self, update_server_metadata, get_self, log, ret; cbn.
  now destruct (update_value _ _) as [merged [e |]].
Qed.





(** ** Access tokens *)

(** C5, amended: an OAuth 1 application asked for an access token without
    a request token never calls the token endpoint.  Metadata resolution
    comes first; when it returns, [MissingRequestTokenError] is raised,
    and when it fails its error is the result.  Without a metadata URL
    to load, the error is raised with no call at all; otherwise the one
    call made is the discovery fetch. *)
Theorem fetch_access_token_without_request_token env w redirect_uri params :
  truthy (request_token_url (app w)) = true ->
  let out := fetch_access_token redirect_uri VNone params env w in
  out = match _load_server_metadata env w with
        | (Ok _, w1) => (Raise MissingRequestTokenError, w1)
        | (Raise e, w1) => (Raise e, w1)
        end /\
  (truthy (_server_metadata_url (app w)) = false ->
   out = (Raise MissingRequestTokenError, w)) /\
  (trace (snd out) = trace w \/
   trace (snd out)
   = (trace w ++ [metadata_request env (app w) (_server_metadata_url (app w))])%list).
Proof.
  intros H1 out.
  assert (Hout : out = match _load_server_metadata env w with
                       | (Ok _, w1) => (Raise MissingRequestTokenError, w1)
                       | (Raise e, w1) => (Raise e, w1)
                       end).
  { subst out. unfold fetch_access_token, bind at 1, get_self at 1.
    unfold bind at 1. destruct (_load_server_metadata env w) as [[md | e] w1].
    - now rewrite H1.
    - reflexivity. }
  split; [exact Hout |]. rewrite Hout. clear Hout out. split.
  - intros H0. now rewrite load_server_metadata_cached.
  - destruct (truthy (_server_metadata_url (app w))) eqn:H0.
    + right. rewrite (load_server_metadata_unfold _ _ H0). cbv zeta.
      destruct (http_reply _ _ _) as [resp | e]; [| reflexivity].
      destruct (body resp) as [doc |]; [| reflexivity].
      now destruct (snd (update_value _ _)).
    + left. now rewrite load_server_metadata_cached.
Qed.

Lemma fetch_access_token_without_request_token_witness :
  truthy (request_token_url (app (start app_oauth1))) = true /\
  fetch_access_token VNone VNone {[ "oauth_verifier" := VStr "v" ]} env_up
    (start app_oauth1)
  = (Raise MissingRequestTokenError, start app_oauth1).
Proof.
  assert (H : truthy (request_token_url (app (start app_oauth1))) = true)
    by reflexivity.
  split; [exact H |].
  exact (proj1 (proj2 (fetch_access_token_without_request_token env_up
                         (start app_oauth1) VNone {[ "oauth_verifier" := VStr "v" ]} H))
           eq_refl).
Defined.

(** C5, as stated, fails for an OAuth 1 application that still has its
    metadata to load: the discovery fetch goes out before the request
    token is looked at. *)
Lemma fetch_access_token_discovers_before_failing :
  truthy (request_token_url app_oauth1_discovery) = true /\
  fst (fetch_access_token VNone VNone ∅ env_up (start app_oauth1_discovery))
  = Raise MissingRequestTokenError /\
  network_calls
    (trace (snd (fetch_access_token VNone VNone ∅ env_up
                   (start app_oauth1_discovery))))
  = [metadata_request env_up app_oauth1_discovery (VStr discovery_url)] /\
  network_calls
    (trace (snd (fetch_access_token VNone VNone ∅ env_up
                   (start app_oauth1_discovery))))
  <> network_calls (trace (start app_oauth1_discovery)).
Proof.
  split; [reflexivity |]. split; [vm_compute; reflexivity |].
  split; [vm_compute; reflexivity |].
  intros H. vm_compute in H. discriminate H.
Qed.

Lemma retrieve_access_token_params_oauth2 env w request :
  truthy (request_token_url (app w)) = false ->
  retrieve_access_token_params request env w
  = if state_eqb (dget (query_params request) "state")
         (_get_session_data request "state")
    then
      (Ok (if truthy (_get_session_data request "redirect_uri")
           then <[ "redirect_uri" := _get_session_data request "redirect_uri" ]>
                  (_generate_access_token_params (app w) request)
           else _generate_access_token_params (app w) request), w)
    else (Raise StateMismatch, w).
Proof.
  intros H. unfold retrieve_access_token_params, bind, get_self, ret, raise.
  rewrite H.
  replace (dget (_generate_access_token_params (app w) request) "state")
    with (dget (query_params request) "state").
  - now destruct (state_eqb _ _).
  - unfold _generate_access_token_params. rewrite H.
    unfold dget at 2. now rewrite lookup_insert_eq.
Qed.

Lemma generated_code (self : RemoteApp) request :
  truthy (request_token_url self) = false ->
  _generate_access_token_params self request !! "code"
  = Some (dget (query_params request) "code").
Proof.
  intros H. unfold _generate_access_token_params. rewrite H.
  rewrite lookup_insert_ne by discriminate. apply lookup_insert_eq.
Qed.

(** The OAuth 2 branch of [fetch_access_token]. *)
Lemma fetch_access_token_oauth2 env w redirect_uri request_token params :
  truthy (request_token_url (app w)) = false ->
  fetch_access_token redirect_uri request_token params env w
  = match _load_server_metadata env w with
    | (Ok metadata, w1) =>
        client_token_call
          (EvFetchToken
             (if negb (truthy (access_token_url (app w)))
              then dget metadata "token_endpoint"
              else access_token_url (app w))
             redirect_uri
             (update
                (if truthy_params (access_token_params (app w))
                 then update ∅ (default ∅ (access_token_params (app w)))
                 else ∅)
                params)) env w1
    | (Raise e, w1) => (Raise e, w1)
    end.
Proof.
  intros H2. unfold fetch_access_token, bind at 1, get_self at 1.
  unfold bind at 1. destruct (_load_server_metadata env w) as [[md | e] w1].
  - rewrite H2. cbn [negb]. now rewrite andb_true_r.
  - reflexivity.
Qed.

(** C4, amended: in the OAuth 2 flow [authorize_access_token] compares the
    state of the callback with the persisted state first.  When they
    differ it raises [StateMismatch] and nothing has been called.  When
    they agree, metadata resolution follows and then exactly one call, the
    token exchange [fetch_token]; its parameters carry the [code] of the
    callback query, unless the caller passes a [code] keyword of its
    own, which replaces it. *)
Theorem authorize_access_token_checks_state env w request kwargs :
  truthy (request_token_url (app w)) = false ->
  (state_eqb (dget (query_params request) "state")
     (_get_session_data request "state") = false ->
   authorize_access_token request kwargs env w = (Raise StateMismatch, w)) /\
  (state_eqb (dget (query_params request) "state")
     (_get_session_data request "state") = true ->
   (forall e w1, _load_server_metadata env w = (Raise e, w1) ->
                 authorize_access_token request kwargs env w = (Raise e, w1)) /\
   (forall md w1, _load_server_metadata env w = (Ok md, w1) ->
      exists redirect_uri kw,
        let sent :=
          EvFetchToken
            (if truthy (access_token_url (app w)) then access_token_url (app w)
             else dget md "token_endpoint")
            redirect_uri kw in
        fst (authorize_access_token request kwargs env w)
        = token_reply env (trace w1) sent /\
        snd (authorize_access_token request kwargs env w)
        = {| app := app w1; trace := (trace w1 ++ [sent])%list |} /\
        kw !! "code"
        = Some (match kwargs !! "code" with
                | Some c => c
                | None => dget (query_params request) "code"
                end))).
Proof.
  intros H2. split.
  - intros Hs. unfold authorize_access_token, bind.
    rewrite (retrieve_access_token_params_oauth2 _ _ _ H2). now rewrite Hs.
  - intros Hs.
    assert (Hrun : authorize_access_token request kwargs env w
                   = fetch_access_token_kw
                       (update
                          (if truthy (_get_session_data request "redirect_uri")
                           then <[ "redirect_uri" := _get_session_data request "redirect_uri" ]>
                                  (_generate_access_token_params (app w) request)
                           else _generate_access_token_params (app w) request)
                          kwargs) env w).
    { unfold authorize_access_token, bind.
      rewrite (retrieve_access_token_params_oauth2 _ _ _ H2). now rewrite Hs. }
    rewrite Hrun. clear Hrun.
    set (params := update _ kwargs).
    assert (Hcode : params !! "code"
                    = Some (match kwargs !! "code" with
                            | Some c => c
                            | None => dget (query_params request) "code"
                            end)).
    { subst params. unfold update.
      destruct (kwargs !! "code") as [c |] eqn:Hk.
      - now apply lookup_union_Some_l.
      - rewrite lookup_union_r by exact Hk.
        destruct (truthy (_get_session_data request "redirect_uri")).
        + rewrite lookup_insert_ne by discriminate. now apply generated_code.
        + now apply generated_code. }
    unfold fetch_access_token_kw.
    rewrite (fetch_access_token_oauth2 _ _ _ _ _ H2).
    destruct (_load_server_metadata env w) as [[md0 | e0] w0].
    + split; [intros e w1 Hl; discriminate Hl |].
      intros md w1 Hl. injection Hl as <- <-.
      eexists _, _. cbv zeta. unfold client_token_call, log. cbn [fst snd].
      split; [now destruct (truthy (access_token_url (app w))) |].
      split; [now destruct (truthy (access_token_url (app w))) |].
      unfold update. apply lookup_union_Some_l.
      rewrite !lookup_delete_ne by discriminate. exact Hcode.
    + split; [| intros md w1 Hl; discriminate Hl].
      intros e w1 Hl. now injection Hl as <- <-.
Qed.

Lemma authorize_access_token_checks_state_witness :
  truthy (request_token_url (app (start app_static))) = false /\
  authorize_access_token callback_forged ∅ env_up (start app_static)
  = (Raise StateMismatch, start app_static) /\
  exists redirect_uri kw,
    snd (authorize_access_token callback_good ∅ env_up (start app_static))
    = {| app := app_static;
         trace := [EvFetchToken (VStr "https://idp.example/token")
                     redirect_uri kw] |} /\
    kw !! "code" = Some (VStr "abc").
Proof.
  assert (H2 : truthy (request_token_url (app (start app_static))) = false)
    by reflexivity.
  split; [exact H2 |]. split.
  - exact (proj1 (authorize_access_token_checks_state env_up (start app_static)
                    callback_forged ∅ H2) eq_refl).
  - destruct (proj2 (proj2 (authorize_access_token_checks_state env_up
                              (start app_static) callback_good ∅ H2)
                       eq_refl) ∅ (start app_static) eq_refl)
      as (redirect_uri & kw & _ & Hw & Hc).
    exists redirect_uri, kw. split; [exact Hw | exact Hc].
Defined.

(** C4, as stated, fails when the caller passes a [code] keyword: with the
    state of the callback equal to the persisted one, the exchange
    carries the [code] of the caller, not the one of the callback
    query. *)
Lemma authorize_access_token_caller_code_replaces_callback :
  state_eqb (dget (query_params callback_good) "state")
    (_get_session_data callback_good "state") = true /\
  dget (query_params callback_good) "code" = VStr "abc" /\
  trace (snd (authorize_access_token callback_good kw_own_code env_up
                (start app_static)))
  = [EvFetchToken (VStr "https://idp.example/token") VNone
       {[ "code" := VStr "other"; "state" := VStr "s1" ]}] /\
  ({[ "code" := VStr "other"; "state" := VStr "s1" ]} : dict) !! "code"
  <> Some (VStr "abc").
Proof.
  split; [reflexivity |]. split; [reflexivity |].
  split; [vm_compute; reflexivity |].
  intros H. vm_compute in H. discriminate H.
Qed.

(** ** Authorization URL *)

Lemma load_server_metadata_client_id env w :
  client_id (app (snd (_load_server_metadata env w))) = client_id (app w).
Proof.
  destruct (truthy (_server_metadata_url (app w))) eqn:H.
  - rewrite (load_server_metadata_unfold _ _ H). cbv zeta.
    destruct (http_reply _ _ _) as [resp | e]; [| reflexivity].
    destruct (body resp) as [doc |]; [| reflexivity].
    now destruct (snd (update_value _ _)).
  - now rewrite load_server_metadata_cached.
Qed.

Lemma merge_authorize_params_static (self : RemoteApp) (kwargs static : dict) k v :
  authorize_params self = Some static ->
  static !! k = Some v ->
  merge_authorize_params self kwargs !! k = Some v.
Proof.
  intros Hs Hk. unfold merge_authorize_params, truthy_params. rewrite Hs.
  destruct (bool_decide (static = ∅)) eqn:He; cbn.
  - apply bool_decide_eq_true in He. subst static.
    now rewrite lookup_empty in Hk.
  - unfold update. now apply lookup_union_Some_l.
Qed.

Lemma merge_authorize_params_caller (self : RemoteApp) (kwargs : dict) k v :
  kwargs !! k = Some v ->
  (forall static, authorize_params self = Some static -> static !! k = None) ->
  merge_authorize_params self kwargs !! k = Some v.
Proof.
  intros Hk Hs. unfold merge_authorize_params.
  destruct (truthy_params (authorize_params self)); [| exact Hk].
  destruct (authorize_params self) as [static |]; cbn.
  - unfold update. rewrite lookup_union_r by now apply Hs. exact Hk.
  - unfold update. now rewrite lookup_union_r by apply lookup_empty.
Qed.

(** C9, amended: in the OAuth 2 flow, once the metadata is resolved and an
    authorization endpoint is known, [create_authorization_url] merges the
    static authorize parameters over the keyword arguments of the caller,
    so for a key present in both the static value is the one kept; a
    keyword of the caller that is not a static parameter is kept as it
    is.  The URL contains [client_id], [redirect_uri], [state] (the merged
    one, or a generated one when there is none) and every other merged
    parameter. *)
Theorem create_authorization_url_oauth2 env w redirect_uri kwargs md w1 :
  truthy (request_token_url (app w)) = false ->
  _load_server_metadata env w = (Ok md, w1) ->
  truthy (if negb (truthy (authorize_url (app w)))
          then dget md "authorization_endpoint"
          else authorize_url (app w)) = true ->
  exists rv,
    create_authorization_url redirect_uri kwargs env w = (Ok rv, w1) /\
    (forall static k v,
        authorize_params (app w) = Some static -> static !! k = Some v ->
        merge_authorize_params (app w) kwargs !! k = Some v) /\
    (forall k v,
        kwargs !! k = Some v ->
        (forall static, authorize_params (app w) = Some static -> static !! k = None) ->
        merge_authorize_params (app w) kwargs !! k = Some v) /\
    ("client_id", client_id (app w)) ∈ url_query (rv_url rv) /\
    ("redirect_uri", redirect_uri) ∈ url_query (rv_url rv) /\
    ("state", rv_state rv) ∈ url_query (rv_url rv) /\
    rv_state rv
    = (if is_none (dget (merge_authorize_params (app w) kwargs) "state")
       then VStr (generate_token env (trace w1))
       else dget (merge_authorize_params (app w) kwargs) "state") /\
    (forall k v,
        merge_authorize_params (app w) kwargs !! k = Some v -> k <> "state" ->
        (k, v) ∈ url_query (rv_url rv)).
Proof.
  intros H2 Hl He.
  pose proof (load_server_metadata_client_id env w) as Hcid.
  rewrite Hl in Hcid. cbn [snd] in Hcid.
  unfold create_authorization_url, bind at 1, get_self at 1.
  unfold bind at 1. rewrite Hl, H2. cbn [negb]. rewrite andb_true_r, He.
  cbn [negb]. unfold _create_oauth2_authorization_url, bind, get_self, ask.
  eexists. split; [reflexivity |]. cbn [rv_url rv_state url_query].
  rewrite Hcid.
  split; [intros static k v; apply merge_authorize_params_static |].
  split; [intros k v; apply merge_authorize_params_caller |].
  split; [apply list_elem_of_here |].
  split; [apply list_elem_of_further, list_elem_of_here |].
  split; [do 2 apply list_elem_of_further; apply list_elem_of_here |].
  split; [reflexivity |].
  intros k v Hk Hne. do 3 apply list_elem_of_further.
  apply elem_of_map_to_list. rewrite lookup_delete_ne by congruence. exact Hk.
Qed.

Lemma create_authorization_url_oauth2_witness :
  truthy (request_token_url (app (start app_prompt))) = false /\
  _load_server_metadata env_up (start app_prompt) = (Ok ∅, start app_prompt) /\
  exists rv,
    create_authorization_url (VStr "https://app.example/cb") kw_prompt_none
      env_up (start app_prompt) = (Ok rv, start app_prompt) /\
    ("client_id", VStr "cid") ∈ url_query (rv_url rv) /\
    ("redirect_uri", VStr "https://app.example/cb") ∈ url_query (rv_url rv) /\
    ("state", rv_state rv) ∈ url_query (rv_url rv).
Proof.
  assert (H2 : truthy (request_token_url (app (start app_prompt))) = false)
    by reflexivity.
  assert (Hl : _load_server_metadata env_up (start app_prompt)
               = (Ok ∅, start app_prompt)) by reflexivity.
  split; [exact H2 |]. split; [exact Hl |].
  destruct (create_authorization_url_oauth2 env_up (start app_prompt)
              (VStr "https://app.example/cb") kw_prompt_none ∅
              (start app_prompt) H2 Hl eq_refl)
    as (rv & Hrun & _ & _ & Hc & Hr & Hs & _).
  exists rv. auto.
Defined.

(** C9, as stated, fails on the precedence: a keyword of the caller that
    is also a static authorize parameter loses to the static value. *)
Lemma create_authorization_url_static_param_wins :
  kw_prompt_none !! "prompt" = Some (VStr "none") /\
  authorize_params app_prompt = Some {[ "prompt" := VStr "consent" ]} /\
  merge_authorize_params app_prompt kw_prompt_none !! "prompt"
  <> Some (VStr "none") /\
  fst (create_authorization_url (VStr "https://app.example/cb") kw_prompt_none
         env_up (start app_prompt))
  = Ok {| rv_url :=
            {| url_endpoint := VStr "https://idp.example/authorize";
               url_query := [("client_id", VStr "cid");
                             ("redirect_uri", VStr "https://app.example/cb");
                             ("state", VStr "generated-state");
                             ("prompt", VStr "consent")] |};
          rv_state := VStr "generated-state";
          rv_request_token := VNone |}.
Proof.
  split; [reflexivity |]. split; [reflexivity |].
  split; [| vm_compute; reflexivity].
  intros H. vm_compute in H. discriminate H.
Qed.

(** ** Verification of ID tokens *)

(** [parse_id_token] on a token response that has an [id_token]: the two
    metadata steps come first, then decoding and validation. *)
Lemma parse_id_token_steps env w request token claims_options :
  contains token "id_token" = true ->
  parse_id_token request token claims_options env w
  = match _load_server_metadata env w with
    | (Raise e, w1) => (Raise e, w1)
    | (Ok metadata, w1) =>
        match _fetch_jwk_set false env w1 with
        | (Raise e, w2) => (Raise e, w2)
        | (Ok jwk_set, w2) =>
            let claims_params : dict :=
              <[ "client_id" := client_id (app w) ]>
                (<[ "nonce" := _get_session_data request "nonce" ]> ∅) in
            let claims_params :=
              if contains token "access_token"
              then <[ "access_token" := dget token "access_token" ]> claims_params
              else claims_params in
            let cls :=
              if contains token "access_token" then CodeIDToken
              else ImplicitIDToken in
            let claims_options :=
              if is_none claims_options && contains metadata "issuer"
              then VDict [("iss", VDict [("values", VList [dget metadata "issuer"])])]
              else claims_options in
            (let* claims :=
               jwt_decode (id_token_alg_values metadata) (dget token "id_token")
                 (fun header _ => jwk_loads env jwk_set (dget header "kid")) in
             run claims_validate cls claims_options claims_params 120 claims in
             ret (Some claims)) env w2
        end
    end.
Proof.
  intros H. unfold parse_id_token. rewrite H. cbn [negb].
  unfold bind at 1, get_self at 1. unfold bind at 1, ask at 1.
  unfold bind at 1. destruct (_load_server_metadata env w) as [[md | e] w1];
    [| reflexivity].
  unfold bind at 1. now destruct (_fetch_jwk_set false env w1) as [[ks | e] w2].
Qed.





(** ** Key lookup *)

Lemma fetch_jwk_set_cached env w :
  truthy (_server_metadata_url (app w)) = false ->
  truthy (dget (server_metadata (app w)) "jwks") = true ->
  _fetch_jwk_set false env w = (Ok (dget (server_metadata (app w)) "jwks"), w).
Proof.
  intros Hu Hk. unfold _fetch_jwk_set, bind.
  rewrite (load_server_metadata_cached _ _ Hu). now rewrite Hk.
Qed.

Lemma jwt_decode_world env w alg_values s key :
  snd (jwt_decode alg_values s key env w) = w.
Proof.
  unfold jwt_decode, bind, ask, raise, ret.
  destruct (jws_parse env s) as [jws |]; [| reflexivity].
  destruct (negb _); [reflexivity |].
  destruct (key _ _) as [k |]; [| reflexivity].
  now destruct (jws_verify env k s).
Qed.

Lemma claims_validate_world env w cls claims_options claims_params leeway claims :
  snd (claims_validate cls claims_options claims_params leeway claims env w) = w.
Proof.
  unfold claims_validate, bind, ask, raise, ret.
  now destruct (claims_valid _ _ _ _ _ _).
Qed.

(** Whatever the key lookup answers, the calls of [parse_id_token] are
    those of metadata resolution and of the one unforced
    [_fetch_jwk_set]: a key id that is not found triggers nothing. *)
Lemma parse_id_token_calls env w request token claims_options :
  contains token "id_token" = true ->
  snd (parse_id_token request token claims_options env w)
  = snd ((run _load_server_metadata in _fetch_jwk_set false) env w).
Proof.
  intros Hc. rewrite (parse_id_token_steps _ _ _ _ _ Hc). unfold bind at 3.
  destruct (_load_server_metadata env w) as [[md | e] w1]; [| reflexivity].
  destruct (_fetch_jwk_set false env w1) as [[ks | e] w2]; [| reflexivity].
  cbv zeta. unfold bind at 1.
  match goal with
  | |- context [jwt_decode ?a ?s ?k env w2] =>
      pose proof (jwt_decode_world env w2 a s k) as Hd;
      destruct (jwt_decode a s k env w2) as [[claims | e] w3]
  end; cbn [snd] in Hd; subst w3; [| reflexivity].
  unfold bind at 1.
  match goal with
  | |- context [claims_validate ?c ?o ?p ?l ?x env w2] =>
      pose proof (claims_validate_world env w2 c o p l x) as Hv;
      destruct (claims_validate c o p l x env w2) as [[u | e] w3]
  end; cbn [snd] in Hv; subst w3; reflexivity.
Qed.

(** With a cached JWK set and no metadata URL to load, [parse_id_token]
    makes no call at all. *)
Lemma parse_id_token_cached_jwks_no_call env w request token claims_options :
  truthy (_server_metadata_url (app w)) = false ->
  truthy (dget (server_metadata (app w)) "jwks") = true ->
  snd (parse_id_token request token claims_options env w) = w.
Proof.
  intros Hu Hk. destruct (contains token "id_token") eqn:Hc.
  - rewrite (parse_id_token_calls _ _ _ _ _ Hc). unfold bind.
    rewrite (load_server_metadata_cached _ _ Hu).
    now rewrite (fetch_jwk_set_cached _ _ Hu Hk).
  - unfold parse_id_token. now rewrite Hc.
Qed.

(** C1: the ID token is signed under key [k2]; the cached JWK set only
    has [k1], while the provider now serves a set that has [k2], which a
    forced [_fetch_jwk_set] would obtain.  [parse_id_token] looks the key
    up once in the cached set and raises: the application object and the
    log are as before, no refresh was made and the lookup was not
    retried. *)
Theorem parse_id_token_unknown_kid_not_refreshed :
  jwk_loads env_up (dget (server_metadata app_cached_jwks) "jwks") (VStr "k2") = None /\
  fst (_fetch_jwk_set true env_up (start app_cached_jwks)) = Ok jwks_new /\
  jwk_loads env_up jwks_new (VStr "k2") = Some (VStr "key-2") /\
  parse_id_token empty_request token_kid_k2 VNone env_up (start app_cached_jwks)
  = (Raise InvalidIDToken, start app_cached_jwks).
Proof.
  split; [reflexivity |]. split; [vm_compute; reflexivity |].
  split; [reflexivity |]. vm_compute. reflexivity.
Qed.

(** * Further properties of the methods *)

(** ** [request] *)

(** X1: an explicit token wins.  Without [withhold_token], a call that
    passes a token sends the request with that token; the hook is not
    invoked, with or without a request context, and the [request] keyword
    is not handed to the client. *)
Theorem request_explicit_token_wins env w method url token request_kw kwargs :
  truthy (dget kwargs "withhold_token") = false ->
  is_none token = false ->
  let sent := EvRequest method (resolve_url env (app w) url) token None kwargs in
  let out := request method url token request_kw kwargs env w in
  fst out = http_reply env (trace w) sent /\
  trace (snd out) = (trace w ++ [sent])%list /\
  hook_calls (trace (snd out)) = hook_calls (trace w).
Proof.
  intros Hw Ht sent out. subst out sent.
  unfold request, bind, get_self, ask, ret. rewrite Hw.
  destruct request_kw as [r |]; repeat rewrite Ht;
    unfold client_request, log; cbn [fst snd trace];
    (split; [reflexivity |]; split; [reflexivity |];
     rewrite hook_calls_app; cbn; now rewrite app_nil_r).
Qed.

Lemma request_explicit_token_wins_witness :
  truthy (dget kw_plain "withhold_token") = false /\
  is_none sample_token = false /\
  trace (snd (request "GET" "me" sample_token (Some empty_request) kw_plain
                env_up (start app_api)))
  = [EvRequest "GET" "https://api.example/v1/me" sample_token None kw_plain].
Proof.
  assert (Hw : truthy (dget kw_plain "withhold_token") = false) by reflexivity.
  assert (Ht : is_none sample_token = false) by reflexivity.
  split; [exact Hw |]. split; [exact Ht |].
  exact (proj1 (proj2 (request_explicit_token_wins env_up (start app_api) "GET"
                         "me" sample_token (Some empty_request) kw_plain Hw Ht))).
Defined.

(** X2: the token found by the hook is the one attached.  Without
    [withhold_token] and without an explicit token, a call with a request
    context invokes the hook once with that context; when the hook
    returns a token, the request goes out with it. *)
Theorem request_hook_token_attached env w method url r kwargs h t :
  truthy (dget kwargs "withhold_token") = false ->
  _fetch_token (app w) = Some h ->
  hook_run h r = Ok t ->
  is_none t = false ->
  let asked := EvHook (is_coroutine h) r in
  let sent := EvRequest method (resolve_url env (app w) url) t None kwargs in
  let out := request method url VNone (Some r) kwargs env w in
  fst out = http_reply env (trace w ++ [asked]) sent /\
  trace (snd out) = (trace w ++ [asked; sent])%list.
Proof.
  intros Hw Hh Hr Ht asked sent out. subst out sent asked.
  unfold request, bind, get_self, ask. rewrite Hw. cbn [is_none].
  rewrite Hh. unfold call_hook. rewrite Hr, Ht.
  unfold client_request, log; cbn [fst snd trace app].
  split; [reflexivity |]. now rewrite <- app_assoc.
Qed.

Lemma request_hook_token_attached_witness :
  truthy (dget kw_plain "withhold_token") = false /\
  _fetch_token (app (start app_api)) = Some hook_returns_token /\
  hook_run hook_returns_token empty_request
  = Ok (VDict [("access_token", VStr "at-1")]) /\
  is_none (VDict [("access_token", VStr "at-1")]) = false /\
  trace (snd (request "GET" "me" VNone (Some empty_request) kw_plain env_up
                (start app_api)))
  = [EvHook true empty_request;
     EvRequest "GET" "https://api.example/v1/me"
       (VDict [("access_token", VStr "at-1")]) None kw_plain].
Proof.
  assert (Hw : truthy (dget kw_plain "withhold_token") = false) by reflexivity.
  assert (Hh : _fetch_token (app (start app_api)) = Some hook_returns_token)
    by reflexivity.
  assert (Hr : hook_run hook_returns_token empty_request
               = Ok (VDict [("access_token", VStr "at-1")])) by reflexivity.
  assert (Ht : is_none (VDict [("access_token", VStr "at-1")]) = false)
    by reflexivity.
  split; [exact Hw |]. split; [exact Hh |]. split; [exact Hr |].
  split; [exact Ht |].
  exact (proj2 (request_hook_token_attached env_up (start app_api) "GET" "me"
                  empty_request kw_plain hook_returns_token _ Hw Hh Hr Ht)).
Defined.

(** X3: an error of the hook is the error of the call, and nothing is
    sent. *)
Theorem request_hook_error_propagates env w method url r kwargs h e :
  truthy (dget kwargs "withhold_token") = false ->
  _fetch_token (app w) = Some h ->
  hook_run h r = Raise e ->
  let out := request method url VNone (Some r) kwargs env w in
  fst out = Raise e /\
  trace (snd out) = (trace w ++ [EvHook (is_coroutine h) r])%list /\
  network_calls (trace (snd out)) = network_calls (trace w).
Proof.
  intros Hw Hh Hr out. subst out.
  unfold request, bind, get_self, ask. rewrite Hw. cbn [is_none].
  rewrite Hh. unfold call_hook. rewrite Hr. cbn [fst snd trace log].
  split; [reflexivity |]. split; [reflexivity |].
  rewrite network_calls_app. cbn. now rewrite app_nil_r.
Qed.

Lemma request_hook_error_propagates_witness :
  truthy (dget kw_plain "withhold_token") = false /\
  _fetch_token (app (start app_hook_raises)) = Some hook_raises /\
  hook_run hook_raises empty_request = Raise (HookError "session expired") /\
  fst (request "GET" "https://api.example/me" VNone (Some empty_request)
         kw_plain env_up (start app_hook_raises))
  = Raise (HookError "session expired").
Proof.
  assert (Hw : truthy (dget kw_plain "withhold_token") = false) by reflexivity.
  assert (Hh : _fetch_token (app (start app_hook_raises)) = Some hook_raises)
    by reflexivity.
  assert (Hr : hook_run hook_raises empty_request
               = Raise (HookError "session expired")) by reflexivity.
  split; [exact Hw |]. split; [exact Hh |]. split; [exact Hr |].
  exact (proj1 (request_hook_error_propagates env_up (start app_hook_raises)
                  "GET" "https://api.example/me" empty_request kw_plain
                  hook_raises _ Hw Hh Hr)).
Defined.

(** The events a call of [request] can add to the log. *)
Lemma request_new_events env w method url token request_kw kwargs :
  let url' := resolve_url env (app w) url in
  let out := request method url token request_kw kwargs env w in
  app (snd out) = app w /\
  exists new,
    trace (snd out) = (trace w ++ new)%list /\
    (new = [] \/
     (exists c r, new = [EvHook c r]) \/
     (exists t rk, new = [EvRequest method url' t rk kwargs]) \/
     (exists c r t, new = [EvHook c r; EvRequest method url' t None kwargs])).
Proof.
  cbv zeta. unfold request, bind, get_self, ask, ret, raise, call_hook.
  destruct (truthy (dget kwargs "withhold_token"));
    [| destruct request_kw as [r |];
       [destruct (is_none token) eqn:Ht;
        [destruct (_fetch_token (app w)) as [h |];
         [destruct (hook_run h r) as [t | e]; [destruct (is_none t) |] |] |] |]];
    rewrite ?Ht; try destruct (is_none token);
    unfold client_request, log; cbn [fst snd app trace];
    (split; [reflexivity |]);
    first
      [ exists []; split; [now rewrite app_nil_r | now left]
      | eexists; split; [reflexivity |]; eauto 10
      | eexists; split; [now rewrite <- app_assoc |]; eauto 10 ].
Qed.

(** X4: whatever its arguments, the hook and the transport do, one call of
    [request] leaves the application object as it is, invokes the hook at
    most once and sends at most one request, which is for the given
    method, the resolved URL and the given keyword arguments. *)
Theorem request_call_budget env w method url token request_kw kwargs :
  let out := request method url token request_kw kwargs env w in
  app (snd out) = app w /\
  exists new,
    trace (snd out) = (trace w ++ new)%list /\
    length (hook_calls new) <= 1 /\
    length (network_calls new) <= 1 /\
    (forall ev, In ev (network_calls new) ->
       exists t rk,
         ev = EvRequest method (resolve_url env (app w) url) t rk kwargs).
Proof.
  intros out. subst out.
  destruct (request_new_events env w method url token request_kw kwargs)
    as (Happ & new & Htr & Hshape).
  split; [exact Happ |]. exists new. split; [exact Htr |].
  destruct Hshape as [-> | [(c & r & ->) | [(t & rk & ->) | (c & r & t & ->)]]];
    cbn; (split; [lia |]); (split; [lia |]); intros ev Hin;
    try contradiction; destruct Hin as [<- | []]; eauto.
Qed.

(** X5: a URL that starts with [https://] or [http://] is sent as it is,
    whatever the base URL of the API. *)
Theorem request_absolute_url_untouched
    env w method url rest token request_kw kwargs :
  url = "https://" ++ rest \/ url = "http://" ++ rest ->
  resolve_url env (app w) url = url /\
  forall m u t rk kw,
    In (EvRequest m u t rk kw)
       (trace (snd (request method url token request_kw kwargs env w))) ->
    In (EvRequest m u t rk kw) (trace w) \/ u = url.
Proof.
  intros Hurl.
  assert (Habs : is_absolute url = true).
  { unfold is_absolute. destruct Hurl as [-> | ->]; cbn.
    - now destruct rest.
    - destruct rest; cbn; now rewrite ?orb_true_r. }
  assert (Hres : resolve_url env (app w) url = url).
  { unfold resolve_url. rewrite Habs. cbn. now rewrite andb_false_r. }
  split; [exact Hres |].
  intros m u t rk kw Hin.
  destruct (request_new_events env w method url token request_kw kwargs)
    as (_ & new & Htr & Hshape).
  rewrite Htr in Hin. apply in_app_or in Hin. destruct Hin as [Hin | Hin];
    [now left | right].
  rewrite Hres in Hshape.
  destruct Hshape as [-> | [(c & r & ->) | [(t' & rk' & ->) | (c & r & t' & ->)]]];
    cbn in Hin; intuition congruence.
Qed.

Lemma request_absolute_url_untouched_witness :
  ("https://other.example/x" = "https://" ++ "other.example/x" \/
   "https://other.example/x" = "http://" ++ "other.example/x") /\
  resolve_url env_up (app (start app_api)) "https://other.example/x"
  = "https://other.example/x".
Proof.
  assert (H : "https://other.example/x" = "https://" ++ "other.example/x" \/
              "https://other.example/x" = "http://" ++ "other.example/x")
    by (left; reflexivity).
  split; [exact H |].
  exact (proj1 (request_absolute_url_untouched env_up (start app_api) "GET"
                  "https://other.example/x" "other.example/x" VNone None
                  kw_plain H)).
Defined.

(** ** [_load_server_metadata] *)

Lemma load_server_metadata_trace env w :
  truthy (_server_metadata_url (app w)) = true ->
  trace (snd (_load_server_metadata env w))
  = (trace w ++ [metadata_request env (app w) (_server_metadata_url (app w))])%list.
Proof.
  intros H. rewrite (load_server_metadata_unfold _ _ H). cbv zeta.
  destruct (http_reply _ _ _) as [resp | e]; [| reflexivity].
  destruct (body resp) as [doc |]; [| reflexivity].
  now destruct (snd (update_value _ _)).
Qed.

(** X6: when the discovery request fails, the error is the result, the
    metadata URL and the cached metadata stay as they are, and the next
    call sends the discovery request again. *)
Theorem load_server_metadata_failure_keeps_url env w e :
  truthy (_server_metadata_url (app w)) = true ->
  http_reply env (trace w)
    (metadata_request env (app w) (_server_metadata_url (app w))) = Raise e ->
  let out := _load_server_metadata env w in
  fst out = Raise e /\
  app (snd out) = app w /\
  forall env',
    trace (snd (_load_server_metadata env' (snd out)))
    = (trace w ++ [metadata_request env (app w) (_server_metadata_url (app w));
                   metadata_request env' (app w) (_server_metadata_url (app w))])%list.
Proof.
  intros Hurl Hreply out. subst out.
  rewrite (load_server_metadata_unfold _ _ Hurl). cbv zeta. rewrite Hreply.
  cbn [fst snd]. split; [reflexivity |]. split; [reflexivity |].
  intros env'. rewrite load_server_metadata_trace by exact Hurl.
  cbn [log app trace]. now rewrite <- app_assoc.
Qed.

Lemma load_server_metadata_failure_keeps_url_witness :
  truthy (_server_metadata_url (app (start app_discovery))) = true /\
  fst (_load_server_metadata env_down (start app_discovery))
  = Raise (TransportError "connection refused") /\
  app (snd (_load_server_metadata env_down (start app_discovery))) = app_discovery.
Proof.
  assert (Hurl : truthy (_server_metadata_url (app (start app_discovery))) = true)
    by reflexivity.
  split; [exact Hurl |].
  destruct (load_server_metadata_failure_keeps_url env_down (start app_discovery)
              (TransportError "connection refused") Hurl eq_refl)
    as (Hr & Ha & _).
  split; [exact Hr | exact Ha].
Defined.

(** X7: when the discovery request returns a mapping, the call returns
    the merged metadata: an entry of the discovery document replaces the
    cached entry with the same key, and every other cached entry is
    kept. *)
Theorem load_server_metadata_discovered_overrides env w resp doc :
  truthy (_server_metadata_url (app w)) = true ->
  http_reply env (trace w)
    (metadata_request env (app w) (_server_metadata_url (app w))) = Ok resp ->
  body resp = Some (VDict doc) ->
  exists md w1,
    _load_server_metadata env w = (Ok md, w1) /\
    server_metadata (app w1) = md /\
    (forall k v, (list_to_map doc : dict) !! k = Some v -> md !! k = Some v) /\
    (forall k, (list_to_map doc : dict) !! k = None ->
               md !! k = server_metadata (app w) !! k).
Proof.
  intros Hurl Hreply Hbody.
  rewrite (load_server_metadata_unfold _ _ Hurl). cbv zeta.
  rewrite Hreply, Hbody. cbn [update_value fst snd].
  eexists _, _. split; [reflexivity |]. split; [reflexivity |].
  unfold update. split.
  - intros k v Hk. now apply lookup_union_Some_l.
  - intros k Hk. now apply lookup_union_r.
Qed.

Lemma load_server_metadata_discovered_overrides_witness :
  truthy (_server_metadata_url (app (start app_discovery))) = true /\
  exists md w1,
    _load_server_metadata env_up (start app_discovery) = (Ok md, w1) /\
    md !! "issuer" = Some (VStr "https://idp.example").
Proof.
  assert (Hurl : truthy (_server_metadata_url (app (start app_discovery))) = true)
    by reflexivity.
  split; [exact Hurl |].
  destruct (load_server_metadata_discovered_overrides env_up (start app_discovery)
              {| status_code := 200; body := Some (VDict discovery_document) |}
              discovery_document Hurl eq_refl eq_refl)
    as (md & w1 & Hrun & _ & Hdoc & _).
  exists md, w1. split; [exact Hrun |].
  apply Hdoc. reflexivity.
Defined.

Lemma update_pairs_keeps_keys items :
  forall (d : dict) k,
    is_Some (d !! k) -> is_Some (fst (update_pairs d items) !! k).
Proof.
  induction items as [| item rest IH]; intros d k Hk; cbn; [exact Hk |].
  destruct (pair_of item) as [[[k' v] |] | e]; cbn; auto.
  apply IH. destruct (decide (k' = k)) as [-> | Hne].
  - rewrite lookup_insert_eq. eauto.
  - now rewrite lookup_insert_ne.
Qed.

Lemma update_value_keeps_keys (d : dict) v k :
  is_Some (d !! k) -> is_Some (fst (update_value d v) !! k).
Proof.
  intros Hk. destruct v as [| b | n | s | items | kvs]; cbn; auto.
  - now destruct (String.eqb s "").
  - now apply update_pairs_keeps_keys.
  - destruct Hk as [x Hx]. unfold update. rewrite lookup_union, Hx.
    destruct (list_to_map kvs !! k); cbn; eauto.
Qed.

(** X8: whatever the outcome, metadata resolution changes nothing but
    the metadata URL and the cached metadata, and it never drops a key
    from the cache. *)
Theorem load_server_metadata_preserves_config env w :
  let a := app w in
  let a' := app (snd (_load_server_metadata env w)) in
  client_id a' = client_id a /\
  request_token_url a' = request_token_url a /\
  request_token_params a' = request_token_params a /\
  access_token_url a' = access_token_url a /\
  access_token_params a' = access_token_params a /\
  authorize_url a' = authorize_url a /\
  authorize_params a' = authorize_params a /\
  api_base_url a' = api_base_url a /\
  _fetch_token a' = _fetch_token a /\
  (forall k, is_Some (server_metadata a !! k) -> is_Some (server_metadata a' !! k)).
Proof.
  cbv zeta. destruct (truthy (_server_metadata_url (app w))) eqn:H.
  - rewrite (load_server_metadata_unfold _ _ H). cbv zeta.
    destruct (http_reply _ _ _) as [resp | e]; [| cbn; tauto].
    destruct (body resp) as [doc |]; [| cbn; tauto].
    destruct (snd (update_value (server_metadata (app w)) doc)); cbn;
      repeat (split; [reflexivity |]); intros k Hk;
      now apply update_value_keeps_keys.
  - rewrite load_server_metadata_cached by exact H. cbn. tauto.
Qed.

(** ** [_fetch_jwk_set] *)

(** [_fetch_jwk_set] once the metadata is resolved. *)
Lemma fetch_jwk_set_unfold env w force :
  truthy (_server_metadata_url (app w)) = false ->
  _fetch_jwk_set force env w
  = let md := server_metadata (app w) in
    if truthy (dget md "jwks") && negb force then (Ok (dget md "jwks"), w)
    else if negb (truthy (dget md "jwks_uri")) then
      (Raise (RuntimeError missing_jwks_uri), w)
    else
      let ev := metadata_request env (app w) (dget md "jwks_uri") in
      match http_reply env (trace w) ev with
      | Raise e => (Raise e, log ev w)
      | Ok resp =>
          match body resp with
          | None => (Raise JSONDecodeError, log ev w)
          | Some ks =>
              (Ok ks,
               {| app := set_server_metadata (<[ "jwks" := ks ]> md) (app w);
                  trace := (trace w ++ [ev])%list |})
          end
      end.
Proof.
  intros Hu. unfold _fetch_jwk_set, bind at 1.
  rewrite (load_server_metadata_cached _ _ Hu). cbv zeta.
  destruct (truthy (dget (server_metadata (app w)) "jwks") && negb force);
    [reflexivity |].
  destruct (negb (truthy (dget (server_metadata (app w)) "jwks_uri")));
    [reflexivity |].
  unfold bind at 1. rewrite fetch_server_metadata_unfold.
  destruct (http_reply _ _ _) as [resp | e]; [| reflexivity].
  unfold resp_json. now destruct (body resp).
Qed.

(** A call made while the metadata URL is pending continues, after the
    discovery, as a call made on the resolved application. *)
Lemma fetch_jwk_set_after_load env w force md w1 :
  _load_server_metadata env w = (Ok md, w1) ->
  truthy (_server_metadata_url (app w1)) = false ->
  server_metadata (app w1) = md ->
  _fetch_jwk_set force env w = _fetch_jwk_set force env w1.
Proof.
  intros Hl Hu Hmd. unfold _fetch_jwk_set. unfold bind at 1. rewrite Hl.
  symmetry. unfold bind at 1.
  rewrite (load_server_metadata_cached _ _ Hu). now rewrite Hmd.
Qed.

(** X9: without a [jwks_uri] in the metadata a key set cannot be
    fetched: a call that needs to fetch, because no key set is cached or
    because the refresh is forced, raises [RuntimeError] and sends
    nothing.  A forced refresh fails in this way even though a key set is
    cached. *)
Theorem fetch_jwk_set_missing_uri env w force :
  truthy (_server_metadata_url (app w)) = false ->
  truthy (dget (server_metadata (app w)) "jwks_uri") = false ->
  truthy (dget (server_metadata (app w)) "jwks") = false \/ force = true ->
  _fetch_jwk_set force env w = (Raise (RuntimeError missing_jwks_uri), w).
Proof.
  intros Hu Huri Hneed. rewrite (fetch_jwk_set_unfold _ _ _ Hu). cbv zeta.
  rewrite Huri. cbn [negb].
  destruct Hneed as [-> | ->]; [reflexivity |].
  now rewrite andb_false_r.
Qed.

Lemma fetch_jwk_set_missing_uri_witness :
  truthy (_server_metadata_url (app (start app_static))) = false /\
  truthy (dget (server_metadata (app (start app_static))) "jwks_uri") = false /\
  (truthy (dget (server_metadata (app (start app_static))) "jwks") = false \/
   false = true) /\
  _fetch_jwk_set false env_up (start app_static)
  = (Raise (RuntimeError missing_jwks_uri), start app_static).
Proof.
  assert (Hu : truthy (_server_metadata_url (app (start app_static))) = false)
    by reflexivity.
  assert (Huri : truthy (dget (server_metadata (app (start app_static))) "jwks_uri")
                 = false) by reflexivity.
  assert (Hneed : truthy (dget (server_metadata (app (start app_static))) "jwks")
                  = false \/ false = true) by (left; reflexivity).
  split; [exact Hu |]. split; [exact Huri |]. split; [exact Hneed |].
  exact (fetch_jwk_set_missing_uri env_up (start app_static) false Hu Huri Hneed).
Defined.

(** X10: a call that needs to fetch and gets a key set sends exactly one
    request, to [jwks_uri], returns the key set and stores it under
    [jwks], leaving the other metadata as it is.  When the stored set is
    not empty, the next unforced call returns it and sends nothing. *)
Theorem fetch_jwk_set_fetches_and_caches env w force resp ks :
  truthy (_server_metadata_url (app w)) = false ->
  truthy (dget (server_metadata (app w)) "jwks_uri") = true ->
  truthy (dget (server_metadata (app w)) "jwks") = false \/ force = true ->
  http_reply env (trace w)
    (metadata_request env (app w) (dget (server_metadata (app w)) "jwks_uri"))
  = Ok resp ->
  body resp = Some ks ->
  exists w',
    _fetch_jwk_set force env w = (Ok ks, w') /\
    trace w'
    = (trace w ++ [metadata_request env (app w)
                     (dget (server_metadata (app w)) "jwks_uri")])%list /\
    server_metadata (app w') !! "jwks" = Some ks /\
    (forall k, k <> "jwks" ->
               server_metadata (app w') !! k = server_metadata (app w) !! k) /\
    (truthy ks = true ->
     forall env', _fetch_jwk_set false env' w' = (Ok ks, w')).
Proof.
  intros Hu Huri Hneed Hreply Hbody.
  rewrite (fetch_jwk_set_unfold _ _ _ Hu). cbv zeta.
  replace (truthy (dget (server_metadata (app w)) "jwks") && negb force)
    with false
    by (destruct Hneed as [-> | ->]; [reflexivity | now rewrite andb_false_r]).
  rewrite Huri, Hreply, Hbody. cbn [negb].
  set (w' := {| app := set_server_metadata
                         (<[ "jwks" := ks ]> (server_metadata (app w))) (app w);
                trace := (trace w ++ [metadata_request env (app w)
                            (dget (server_metadata (app w)) "jwks_uri")])%list |}).
  assert (Hj : dget (server_metadata (app w')) "jwks" = ks)
    by (subst w'; cbn; unfold dget; now rewrite lookup_insert_eq).
  exists w'. split; [reflexivity |]. split; [reflexivity |].
  split; [apply lookup_insert_eq |].
  split; [intros k Hk; subst w'; cbn; now apply lookup_insert_ne |].
  intros Hks env'.
  rewrite (fetch_jwk_set_unfold env' w' false Hu). cbv zeta.
  now rewrite Hj, Hks.
Qed.

Lemma fetch_jwk_set_fetches_and_caches_witness :
  truthy (_server_metadata_url (app (start app_cached_jwks))) = false /\
  truthy (dget (server_metadata (app (start app_cached_jwks))) "jwks_uri") = true /\
  exists w',
    _fetch_jwk_set true env_up (start app_cached_jwks) = (Ok jwks_new, w') /\
    server_metadata (app w') !! "jwks" = Some jwks_new.
Proof.
  assert (Hu : truthy (_server_metadata_url (app (start app_cached_jwks))) = false)
    by reflexivity.
  assert (Huri : truthy (dget (server_metadata (app (start app_cached_jwks)))
                           "jwks_uri") = true) by reflexivity.
  split; [exact Hu |]. split; [exact Huri |].
  destruct (fetch_jwk_set_fetches_and_caches env_up (start app_cached_jwks) true
              {| status_code := 200; body := Some jwks_new |} jwks_new
              Hu Huri (or_intror eq_refl) eq_refl eq_refl)
    as (w' & Hrun & _ & Hk & _).
  exists w'. split; [exact Hrun | exact Hk].
Defined.

(** X11: a refresh that fails does not lose the cached keys.  When the
    request to [jwks_uri] fails, the error is the result and the metadata
    is untouched, so a cached key set is still returned by the next
    unforced call. *)
Theorem fetch_jwk_set_failure_keeps_cache env w force e :
  truthy (_server_metadata_url (app w)) = false ->
  truthy (dget (server_metadata (app w)) "jwks_uri") = true ->
  truthy (dget (server_metadata (app w)) "jwks") = false \/ force = true ->
  http_reply env (trace w)
    (metadata_request env (app w) (dget (server_metadata (app w)) "jwks_uri"))
  = Raise e ->
  let out := _fetch_jwk_set force env w in
  fst out = Raise e /\
  app (snd out) = app w /\
  (truthy (dget (server_metadata (app w)) "jwks") = true ->
   forall env',
     _fetch_jwk_set false env' (snd out)
     = (Ok (dget (server_metadata (app w)) "jwks"), snd out)).
Proof.
  intros Hu Huri Hneed Hreply out. subst out.
  rewrite (fetch_jwk_set_unfold _ _ _ Hu). cbv zeta.
  replace (truthy (dget (server_metadata (app w)) "jwks") && negb force)
    with false
    by (destruct Hneed as [-> | ->]; [reflexivity | now rewrite andb_false_r]).
  rewrite Huri, Hreply. cbn [negb fst snd].
  split; [reflexivity |]. split; [reflexivity |].
  intros Hk env'. rewrite fetch_jwk_set_unfold by exact Hu. cbv zeta.
  cbn [log app]. now rewrite Hk.
Qed.

Lemma fetch_jwk_set_failure_keeps_cache_witness :
  truthy (_server_metadata_url (app (start app_cached_jwks))) = false /\
  truthy (dget (server_metadata (app (start app_cached_jwks))) "jwks_uri") = true /\
  fst (_fetch_jwk_set true env_down (start app_cached_jwks))
  = Raise (TransportError "connection refused") /\
  app (snd (_fetch_jwk_set true env_down (start app_cached_jwks)))
  = app_cached_jwks.
Proof.
  assert (Hu : truthy (_server_metadata_url (app (start app_cached_jwks))) = false)
    by reflexivity.
  assert (Huri : truthy (dget (server_metadata (app (start app_cached_jwks)))
                           "jwks_uri") = true) by reflexivity.
  split; [exact Hu |]. split; [exact Huri |].
  destruct (fetch_jwk_set_failure_keeps_cache env_down (start app_cached_jwks)
              true (TransportError "connection refused")
              Hu Huri (or_intror eq_refl) eq_refl)
    as (Hr & Ha & _).
  split; [exact Hr | exact Ha].
Defined.

(** X12: discovery and key retrieval compose.  On an application that
    still has its metadata URL, an unforced [_fetch_jwk_set] first loads
    the discovery document and then, when the merged metadata has a
    [jwks_uri] and no key set, fetches the key set from there: two
    requests in this order, after which the metadata URL is cleared and
    the key set is cached. *)
Theorem fetch_jwk_set_discovers_then_fetches env w resp doc resp2 ks :
  truthy (_server_metadata_url (app w)) = true ->
  http_reply env (trace w)
    (metadata_request env (app w) (_server_metadata_url (app w))) = Ok resp ->
  body resp = Some (VDict doc) ->
  truthy (dget (update (server_metadata (app w)) (list_to_map doc)) "jwks") = false ->
  truthy (dget (update (server_metadata (app w)) (list_to_map doc)) "jwks_uri") = true ->
  http_reply env
    (trace w ++ [metadata_request env (app w) (_server_metadata_url (app w))])
    (metadata_request env (app w)
       (dget (update (server_metadata (app w)) (list_to_map doc)) "jwks_uri"))
  = Ok resp2 ->
  body resp2 = Some ks ->
  exists w2,
    _fetch_jwk_set false env w = (Ok ks, w2) /\
    trace w2
    = (trace w ++
       [metadata_request env (app w) (_server_metadata_url (app w));
        metadata_request env (app w)
          (dget (update (server_metadata (app w)) (list_to_map doc)) "jwks_uri")])%list /\
    _server_metadata_url (app w2) = VNone /\
    server_metadata (app w2)
    = <[ "jwks" := ks ]> (update (server_metadata (app w)) (list_to_map doc)).
Proof.
  intros Hurl Hreply Hbody Hjwks Huri Hreply2 Hbody2.
  set (md := update (server_metadata (app w)) (list_to_map doc)) in *.
  set (disc := metadata_request env (app w) (_server_metadata_url (app w))) in *.
  set (w1 := {| app := set_server_metadata md (set_server_metadata_url VNone (app w));
                trace := (trace w ++ [disc])%list |}).
  assert (Hl : _load_server_metadata env w = (Ok md, w1)).
  { rewrite (load_server_metadata_unfold _ _ Hurl). cbv zeta.
    fold disc. now rewrite Hreply, Hbody. }
  assert (Hu1 : truthy (_server_metadata_url (app w1)) = false) by reflexivity.
  rewrite (fetch_jwk_set_after_load env w false md w1 Hl Hu1 eq_refl).
  rewrite (fetch_jwk_set_unfold env w1 false Hu1). cbv zeta.
  change (server_metadata (app w1)) with md.
  rewrite Hjwks, Huri. cbn [andb negb].
  change (metadata_request env (app w1) (dget md "jwks_uri"))
    with (metadata_request env (app w) (dget md "jwks_uri")).
  change (trace w1) with (trace w ++ [disc])%list.
  rewrite Hreply2, Hbody2.
  eexists. split; [reflexivity |]. cbn [app trace].
  split; [now rewrite <- app_assoc |]. split; reflexivity.
Qed.

Lemma fetch_jwk_set_discovers_then_fetches_witness :
  truthy (_server_metadata_url (app (start app_discovery))) = true /\
  exists w2,
    _fetch_jwk_set false env_up (start app_discovery) = (Ok jwks_new, w2) /\
    trace w2
    = [metadata_request env_up app_discovery (VStr discovery_url);
       metadata_request env_up app_discovery (VStr jwks_url)] /\
    _server_metadata_url (app w2) = VNone.
Proof.
  assert (Hurl : truthy (_server_metadata_url (app (start app_discovery))) = true)
    by reflexivity.
  split; [exact Hurl |].
  destruct (fetch_jwk_set_discovers_then_fetches env_up (start app_discovery)
              {| status_code := 200; body := Some (VDict discovery_document) |}
              discovery_document
              {| status_code := 200; body := Some jwks_new |} jwks_new
              Hurl eq_refl eq_refl eq_refl eq_refl eq_refl eq_refl)
    as (w2 & Hrun & Htr & Hu & _).
  exists w2. split; [exact Hrun |]. split; [exact Htr | exact Hu].
Defined.

(** ** [fetch_access_token] *)

Lemma or_empty_lookup (p : option dict) k :
  (if truthy_params p then update ∅ (default ∅ p) else (∅ : dict)) !! k
  = or_empty p !! k.
Proof.
  unfold or_empty, update. destruct (truthy_params p); [| reflexivity].
  now rewrite lookup_union_l by apply lookup_empty.
Qed.



(** X14: a missing token endpoint is not checked.  In the OAuth 2 flow,
    with no [access_token_url] and no [token_endpoint] in the resolved
    metadata, [fetch_access_token] raises nothing of its own: it calls
    the client with [None] as endpoint, and the outcome is that of the
    client. *)
Theorem fetch_access_token_endpoint_not_checked
    env w redirect_uri request_token params md w1 :
  truthy (request_token_url (app w)) = false ->
  truthy (access_token_url (app w)) = false ->
  _load_server_metadata env w = (Ok md, w1) ->
  md !! "token_endpoint" = None ->
  exists kw,
    fst (fetch_access_token redirect_uri request_token params env w)
    = token_reply env (trace w1) (EvFetchToken VNone redirect_uri kw) /\
    trace (snd (fetch_access_token redirect_uri request_token params env w))
    = (trace w1 ++ [EvFetchToken VNone redirect_uri kw])%list.
Proof.
  intros H2 Hu Hl Hk. rewrite (fetch_access_token_oauth2 _ _ _ _ _ H2), Hl.
  rewrite Hu. cbn [negb]. unfold dget. rewrite Hk. cbn [default].
  eexists. split; reflexivity.
Qed.

Lemma fetch_access_token_endpoint_not_checked_witness :
  truthy (request_token_url (app (start app_no_token_url))) = false /\
  truthy (access_token_url (app (start app_no_token_url))) = false /\
  _load_server_metadata env_up (start app_no_token_url)
  = (Ok ∅, start app_no_token_url) /\
  (∅ : dict) !! "token_endpoint" = None /\
  exists kw,
    trace (snd (fetch_access_token VNone VNone {[ "code" := VStr "abc" ]} env_up
                  (start app_no_token_url)))
    = [EvFetchToken VNone VNone kw].
Proof.
  assert (H2 : truthy (request_token_url (app (start app_no_token_url))) = false)
    by reflexivity.
  assert (Hu : truthy (access_token_url (app (start app_no_token_url))) = false)
    by reflexivity.
  assert (Hl : _load_server_metadata env_up (start app_no_token_url)
               = (Ok ∅, start app_no_token_url)) by reflexivity.
  assert (Hk : (∅ : dict) !! "token_endpoint" = None) by reflexivity.
  split; [exact H2 |]. split; [exact Hu |]. split; [exact Hl |].
  split; [exact Hk |].
  destruct (fetch_access_token_endpoint_not_checked env_up (start app_no_token_url)
              VNone VNone {[ "code" := VStr "abc" ]} ∅ (start app_no_token_url)
              H2 Hu Hl Hk)
    as (kw & _ & Htr).
  exists kw. exact Htr.
Defined.



(** What metadata resolution can do to the application object. *)
Lemma load_server_metadata_app env w :
  let a' := app (snd (_load_server_metadata env w)) in
  a' = app w \/
  a' = set_server_metadata_url VNone (app w) \/
  exists m, a' = set_server_metadata m (set_server_metadata_url VNone (app w)).
Proof.
  cbv zeta. destruct (truthy (_server_metadata_url (app w))) eqn:H.
  - rewrite (load_server_metadata_unfold _ _ H). cbv zeta.
    destruct (http_reply _ _ _) as [resp | e]; [| now left].
    destruct (body resp) as [doc |]; [| now left].
    destruct (snd (update_value _ _)); cbn; eauto.
  - rewrite load_server_metadata_cached by exact H. now left.
Qed.

Lemma load_server_metadata_resolved env w md w1 :
  _load_server_metadata env w = (Ok md, w1) ->
  truthy (_server_metadata_url (app w1)) = false /\
  server_metadata (app w1) = md.
Proof.
  intros Hl. destruct (truthy (_server_metadata_url (app w))) eqn:H.
  - rewrite (load_server_metadata_unfold _ _ H) in Hl. cbv zeta in Hl.
    destruct (http_reply _ _ _) as [resp | e]; [| discriminate].
    destruct (body resp) as [doc |]; [| discriminate].
    destruct (snd (update_value _ _)); [discriminate |].
    injection Hl as <- <-. now split.
  - rewrite load_server_metadata_cached in Hl by exact H.
    injection Hl as <- <-. now split.
Qed.

(** X16: a token exchange that succeeds leaves the metadata resolved.
    After [fetch_access_token] has returned a token, in either flow, no
    metadata URL is pending, so later metadata resolutions return the
    cache and send nothing. *)
Theorem fetch_access_token_leaves_metadata_resolved
    env w redirect_uri request_token params tok w2 :
  fetch_access_token redirect_uri request_token params env w = (Ok tok, w2) ->
  truthy (_server_metadata_url (app w2)) = false /\
  forall env', _load_server_metadata env' w2 = (Ok (server_metadata (app w2)), w2).
Proof.
  intros Hrun.
  assert (Hu : truthy (_server_metadata_url (app w2)) = false).
  { revert Hrun. unfold fetch_access_token, bind at 1, get_self at 1.
    unfold bind at 1.
    destruct (_load_server_metadata env w) as [[md | e] w1] eqn:Hl;
      [| discriminate].
    destruct (load_server_metadata_resolved _ _ _ _ Hl) as [Hu1 _].
    destruct (truthy (request_token_url (app w))).
    - destruct (is_none request_token); [discriminate |].
      unfold bind, lift.
      destruct (updated (update_value ∅ request_token)) as [t | e];
        [| discriminate].
      unfold client_token_call. intros H. injection H as _ <-. exact Hu1.
    - unfold client_token_call. intros H. injection H as _ <-. exact Hu1. }
  split; [exact Hu |]. intros env'. now apply load_server_metadata_cached.
Qed.

Lemma fetch_access_token_leaves_metadata_resolved_witness :
  fetch_access_token VNone VNone {[ "code" := VStr "abc" ]} env_up
    (start app_discovery)
  = (Ok (VDict [("access_token", VStr "at-1")]),
     {| app := set_server_metadata (list_to_map discovery_document) app_static;
        trace := [metadata_request env_up app_discovery (VStr discovery_url);
                  EvFetchToken (VStr "https://idp.example/token") VNone
                    {[ "code" := VStr "abc" ]}] |}) /\
  _load_server_metadata env_down
    {| app := set_server_metadata (list_to_map discovery_document) app_static;
       trace := [metadata_request env_up app_discovery (VStr discovery_url);
                 EvFetchToken (VStr "https://idp.example/token") VNone
                   {[ "code" := VStr "abc" ]}] |}
  = (Ok (list_to_map discovery_document),
     {| app := set_server_metadata (list_to_map discovery_document) app_static;
        trace := [metadata_request env_up app_discovery (VStr discovery_url);
                  EvFetchToken (VStr "https://idp.example/token") VNone
                    {[ "code" := VStr "abc" ]}] |}).
Proof.
  assert (Hrun :
    fetch_access_token VNone VNone {[ "code" := VStr "abc" ]} env_up
      (start app_discovery)
    = (Ok (VDict [("access_token", VStr "at-1")]),
       {| app := set_server_metadata (list_to_map discovery_document) app_static;
          trace := [metadata_request env_up app_discovery (VStr discovery_url);
                    EvFetchToken (VStr "https://idp.example/token") VNone
                      {[ "code" := VStr "abc" ]}] |}))
    by (vm_compute; reflexivity).
  split; [exact Hrun |].
  exact (proj2 (fetch_access_token_leaves_metadata_resolved env_up
                  (start app_discovery) VNone VNone {[ "code" := VStr "abc" ]}
                  _ _ Hrun) env_down).
Defined.

(** ** [create_authorization_url] *)

(** X17: without an authorization endpoint no URL is made.  When
    [authorize_url] is not set and the resolved metadata gives no
    [authorization_endpoint], the call raises [RuntimeError]; an OAuth 1
    application never takes the endpoint from the metadata, so it raises
    even when the metadata names one.  Nothing is sent after the metadata
    resolution: no request token is asked for. *)
Theorem create_authorization_url_missing_endpoint env w redirect_uri kwargs md w1 :
  _load_server_metadata env w = (Ok md, w1) ->
  truthy (authorize_url (app w)) = false ->
  truthy (request_token_url (app w)) = true \/
  truthy (dget md "authorization_endpoint") = false ->
  create_authorization_url redirect_uri kwargs env w
  = (Raise (RuntimeError missing_authorize_url), w1).
Proof.
  intros Hl Ha Hcase. unfold create_authorization_url, bind at 1, get_self at 1.
  unfold bind at 1. rewrite Hl, Ha. cbn [negb andb].
  destruct Hcase as [H1 | Hm].
  - rewrite H1. cbn [negb]. now rewrite Ha.
  - destruct (truthy (request_token_url (app w))); cbn [negb].
    + now rewrite Ha.
    + now rewrite Hm.
Qed.

Lemma create_authorization_url_missing_endpoint_witness :
  _load_server_metadata env_up (start app_oauth1_no_authorize)
  = (Ok (server_metadata app_oauth1_no_authorize), start app_oauth1_no_authorize) /\
  truthy (authorize_url (app (start app_oauth1_no_authorize))) = false /\
  truthy (dget (server_metadata app_oauth1_no_authorize) "authorization_endpoint")
  = true /\
  create_authorization_url (VStr "https://app.example/cb") ∅ env_up
    (start app_oauth1_no_authorize)
  = (Raise (RuntimeError missing_authorize_url), start app_oauth1_no_authorize).
Proof.
  assert (Hl : _load_server_metadata env_up (start app_oauth1_no_authorize)
               = (Ok (server_metadata app_oauth1_no_authorize),
                  start app_oauth1_no_authorize)) by reflexivity.
  assert (Ha : truthy (authorize_url (app (start app_oauth1_no_authorize))) = false)
    by reflexivity.
  split; [exact Hl |]. split; [exact Ha |]. split; [reflexivity |].
  exact (create_authorization_url_missing_endpoint env_up
           (start app_oauth1_no_authorize) (VStr "https://app.example/cb") ∅ _ _
           Hl Ha (or_introl eq_refl)).
Defined.

Lemma static_params_or_empty (p : option dict) :
  (if truthy_params p then update ∅ (default ∅ p) else (∅ : dict)) = or_empty p.
Proof. apply map_eq. intros k. apply or_empty_lookup. Qed.

(** X18: in the OAuth 1 flow with an authorization endpoint, once the
    metadata is resolved, one request token is asked for at
    [request_token_url] with the static [request_token_params] and nothing
    else (neither the keyword arguments of the caller nor the authorize
    parameters).  The token obtained is returned as [request_token], and no
    state is returned; when the request fails, its error is the result. *)
Theorem create_authorization_url_oauth1_request_token
    env w redirect_uri kwargs md w1 :
  truthy (request_token_url (app w)) = true ->
  truthy (authorize_url (app w)) = true ->
  _load_server_metadata env w = (Ok md, w1) ->
  let asked :=
    EvFetchRequestToken (request_token_url (app w)) redirect_uri
      (or_empty (request_token_params (app w))) in
  let out := create_authorization_url redirect_uri kwargs env w in
  snd out = log asked w1 /\
  (forall e, token_reply env (trace w1) asked = Raise e -> fst out = Raise e) /\
  (forall tok, token_reply env (trace w1) asked = Ok tok ->
     exists rv, fst out = Ok rv /\ rv_request_token rv = tok /\ rv_state rv = VNone).
Proof.
  intros H1 Ha Hl asked out.
  pose proof (load_server_metadata_app env w) as Happ.
  rewrite Hl in Happ. cbv zeta in Happ. cbn [snd] in Happ.
  assert (Hrt : request_token_url (app w1) = request_token_url (app w))
    by (destruct Happ as [-> | [-> | [m ->]]]; reflexivity).
  assert (Hrp : request_token_params (app w1) = request_token_params (app w))
    by (destruct Happ as [-> | [-> | [m ->]]]; reflexivity).
  assert (Hrun : out
            = match token_reply env (trace w1) asked with
              | Ok tok =>
                  (Ok {| rv_url :=
                           oauth1_authorization_url (authorize_url (app w)) tok
                             (merge_authorize_params (app w) kwargs);
                         rv_state := VNone;
                         rv_request_token := tok |},
                   log asked w1)
              | Raise e => (Raise e, log asked w1)
              end).
  { subst out asked.
    unfold create_authorization_url, bind at 1, get_self at 1.
    unfold bind at 1. rewrite Hl, Ha, H1. cbn [negb andb]. rewrite Ha. cbn [negb].
    unfold _create_oauth1_authorization_url, bind, get_self, client_token_call, ret.
    rewrite Hrt, Hrp, static_params_or_empty.
    now destruct (token_reply env (trace w1) _). }
  rewrite Hrun. clear Hrun out.
  destruct (token_reply env (trace w1) asked) as [tok | e];
    cbn [fst snd]; (split; [reflexivity |]); split.
  - intros e He. discriminate He.
  - intros tok' Hk. injection Hk as <-. eexists.
    split; [reflexivity |]. split; reflexivity.
  - intros e' He. now injection He as <-.
  - intros tok' Hk. discriminate Hk.
Qed.

Lemma create_authorization_url_oauth1_request_token_witness :
  truthy (request_token_url (app (start app_oauth1_realm))) = true /\
  truthy (authorize_url (app (start app_oauth1_realm))) = true /\
  _load_server_metadata env_up (start app_oauth1_realm)
  = (Ok ∅, start app_oauth1_realm) /\
  trace (snd (create_authorization_url (VStr "https://app.example/cb")
                {[ "lang" := VStr "en" ]} env_up (start app_oauth1_realm)))
  = [EvFetchRequestToken (VStr "https://idp.example/request_token")
       (VStr "https://app.example/cb") {[ "realm" := VStr "photos" ]}].
Proof.
  assert (H1 : truthy (request_token_url (app (start app_oauth1_realm))) = true)
    by reflexivity.
  assert (Ha : truthy (authorize_url (app (start app_oauth1_realm))) = true)
    by reflexivity.
  assert (Hl : _load_server_metadata env_up (start app_oauth1_realm)
               = (Ok ∅, start app_oauth1_realm)) by reflexivity.
  split; [exact H1 |]. split; [exact Ha |]. split; [exact Hl |].
  rewrite (proj1 (create_authorization_url_oauth1_request_token env_up
                    (start app_oauth1_realm) (VStr "https://app.example/cb")
                    {[ "lang" := VStr "en" ]} ∅ (start app_oauth1_realm)
                    H1 Ha Hl)).
  reflexivity.
Defined.

(** ** [parse_id_token] *)

(** X19: keys are required before the ID token is looked at.  For a token
    response with an [id_token], on an application with resolved
    metadata that has neither a key set nor a [jwks_uri],
    [parse_id_token] raises the [RuntimeError] of [_fetch_jwk_set],
    whatever the ID token is, and sends nothing. *)
Theorem parse_id_token_requires_jwks env w request token claims_options :
  contains token "id_token" = true ->
  truthy (_server_metadata_url (app w)) = false ->
  truthy (dget (server_metadata (app w)) "jwks") = false ->
  truthy (dget (server_metadata (app w)) "jwks_uri") = false ->
  parse_id_token request token claims_options env w
  = (Raise (RuntimeError missing_jwks_uri), w).
Proof.
  intros Hc Hu Hk Huri. rewrite (parse_id_token_steps _ _ _ _ _ Hc).
  rewrite (load_server_metadata_cached _ _ Hu).
  rewrite (fetch_jwk_set_unfold _ _ _ Hu). cbv zeta. now rewrite Hk, Huri.
Qed.

Lemma parse_id_token_requires_jwks_witness :
  contains token_kid_k2 "id_token" = true /\
  truthy (_server_metadata_url (app (start app_static))) = false /\
  truthy (dget (server_metadata (app (start app_static))) "jwks") = false /\
  truthy (dget (server_metadata (app (start app_static))) "jwks_uri") = false /\
  parse_id_token empty_request token_kid_k2 VNone env_up (start app_static)
  = (Raise (RuntimeError missing_jwks_uri), start app_static).
Proof.
  assert (Hc : contains token_kid_k2 "id_token" = true) by reflexivity.
  assert (Hu : truthy (_server_metadata_url (app (start app_static))) = false)
    by reflexivity.
  assert (Hk : truthy (dget (server_metadata (app (start app_static))) "jwks") = false)
    by reflexivity.
  assert (Huri : truthy (dget (server_metadata (app (start app_static))) "jwks_uri")
                 = false) by reflexivity.
  split; [exact Hc |]. split; [exact Hu |]. split; [exact Hk |].
  split; [exact Huri |].
  exact (parse_id_token_requires_jwks env_up (start app_static) empty_request
           token_kid_k2 VNone Hc Hu Hk Huri).
Defined.
